(** * The real-time conversation hub of the chat server

    A shallow embedding of [chat/consumers.py] ([ChatConsumer]) and of the
    model methods of [chat/models.py] it relies on, followed by the
    properties of the hub: presence, fan-out, typing indicators, read
    receipts and the handling of bad frames.

    Conventions.
    - A Python [str] is the list of its Unicode code points.
    - A point in time is an integer number of microseconds (the resolution
      of [datetime]); [timezone.now()] is an explicit argument [now].
    - The ORM tables are fields of [database]; the channel layer's groups
      and the consumer instances are fields of [hub].
    - A coroutine of the consumer is a function [hub -> hub * option exn]:
      the state it leaves behind and the exception it let escape, if any.
      An exception that escapes ends the consumer; what the server then
      does with the socket is not part of the state.
    - Ids are those a 64-bit integer column holds ([in_db_range]). *)

From stdpp Require Import gmap strings list fin_maps pretty.

Local Open Scope Z_scope.

(** ** Python strings *)

Abbreviation str := (list N).

(** A Python string literal (ASCII source text). *)
Definition py (s : string) : str :=
  Ascii.N_of_ascii <$> String.list_ascii_of_string s.

(** [str.isspace] on one character: the code points CPython lists as
    whitespace. *)
Definition isspace (c : N) : bool :=
  ((9 <=? c) && (c <=? 13))%N
  || ((28 <=? c) && (c <=? 32))%N
  || (c =? 133)%N || (c =? 160)%N || (c =? 5760)%N
  || ((8192 <=? c) && (c <=? 8202))%N
  || (c =? 8232)%N || (c =? 8233)%N || (c =? 8239)%N
  || (c =? 8287)%N || (c =? 12288)%N.

Fixpoint lstrip (s : str) : str :=
  match s with
  | [] => []
  | c :: s' => if isspace c then lstrip s' else s
  end.

Definition rstrip (s : str) : str := reverse (lstrip (reverse s)).

(** [s.strip()] with no argument. *)
Definition strip (s : str) : str := rstrip (lstrip s).

(** ** JSON values, as [json.loads] builds them

    Numbers are Python [int]s. An object is the [dict] built from it, kept
    as an association list in which every key occurs once. *)

#[local] Set Warnings "-register-all".
Inductive json : Type :=
  | JNull
  | JBool (b : bool)
  | JInt (z : Z)
  | JStr (s : str)
  | JList (l : list json)
  | JDict (d : list (str * json)).

Abbreviation dict := (list (str * json)).

(** [d.get(k)], [None] being Coq's [None]. *)
Fixpoint dict_get (k : str) (d : dict) : option json :=
  match d with
  | [] => None
  | (k', v) :: d' => if decide (k' = k) then Some v else dict_get k d'
  end.

(** [d.get(k, dflt)]. *)
Definition dict_get_default (k : str) (dflt : json) (d : dict) : json :=
  default dflt (dict_get k d).

(** Truth value of a JSON value in a Python condition. *)
Definition truthy (v : json) : bool :=
  match v with
  | JNull => false
  | JBool b => b
  | JInt z => negb (z =? 0)
  | JStr [] | JList [] | JDict [] => false
  | JStr _ | JList _ | JDict _ => true
  end.

(** [v == 'literal'] for a value read from a frame. *)
Definition eq_str (v : option json) (lit : string) : bool :=
  match v with
  | Some (JStr s) => bool_decide (s = py lit)
  | _ => false
  end.

(** ** Primary keys read from a frame

    A value handed to an [id=...] lookup goes through Python's [int]. *)

Definition digit (c : N) : option Z :=
  if ((48 <=? c) && (c <=? 57))%N then Some (Z.of_N c - 48) else None.

(** The digits of a decimal literal; one underscore may stand between two
    digits. [seen] tells whether the character before was a digit. *)
Fixpoint digits (acc : Z) (seen : bool) (s : str) : option Z :=
  match s with
  | [] => if seen then Some acc else None
  | c :: s' =>
      if (c =? 95)%N then (if seen then digits acc false s' else None)
      else match digit c with
           | Some d => digits (10 * acc + d) true s'
           | None => None
           end
  end.

(** [int(s)] for a [str]: white space around, a sign, decimal digits.
    Of the decimal digits Python reads, the ASCII ones are followed here;
    a text with a digit of another script is taken not to parse, and the
    interpreter's limit on the length of such a text is not followed. *)
Definition int_of_str (s : str) : option Z :=
  match strip s with
  | 43%N :: t => digits 0 false t
  | 45%N :: t => Z.opp <$> digits 0 false t
  | t => digits 0 false t
  end.

(** ** Exceptions that can leave a coroutine *)

Inductive exn : Type :=
  | AttributeError          (* [.get] on a non-dict, [.strip] on a non-str,
                               an attribute read before [connect] set it *)
  | ValueError              (* a primary key that [int] cannot parse *)
  | TypeError               (* a primary key that [int] does not take *)
  | RecursionError          (* [json.loads] on a text nested too deeply *)
  | IntegrityError          (* a row that points at a missing conversation *)
  | MultipleObjectsReturned (* [get] found more than one row *).

(** ** The tables of [authentication/models.py] and [chat/models.py]

    Primary keys are integers. Only the columns the hub reads or writes are
    kept. Rows of the user table have the online flag as their one column
    of interest; a consumer's user is taken to be a row of that table for
    as long as the session lives, so foreign keys to it are not checked. *)

(** The ids a 64-bit integer column holds. A lookup by a number beyond
    them is not followed: where the tables below just hold no such row,
    the database adapter may refuse the number. *)
Definition in_db_range (z : Z) : Prop := - 2 ^ 63 <= z < 2 ^ 63.

Record User : Type := mkUser {
  id : Z;
  username : str;
  is_authenticated : bool      (* false for [AnonymousUser] *)
}.

Record ConversationParticipant : Type := mkParticipant {
  cp_conversation : Z;
  cp_user : Z;
  cp_is_admin : bool;
  last_read_at : option Z
}.

Record Message : Type := mkMessage {
  msg_id : Z;
  msg_conversation : Z;
  msg_sender : Z;
  msg_type : str;
  msg_content : str;
  created_at : Z;
  edited_at : option Z;
  is_edited : bool
}.

Record MessageReadStatus : Type := mkReadStatus {
  rs_message : Z;
  rs_user : Z;
  read_at : Z
}.

Record TypingIndicator : Type := mkTyping {
  ti_conversation : Z;
  ti_user : Z;
  started_at : Z
}.

Record database : Type := mkDb {
  users : gmap Z bool;                   (* user id -> is_online *)
  conversations : gmap Z Z;              (* conversation id -> updated_at *)
  participants : list ConversationParticipant;
  messages : list Message;
  read_status : list MessageReadStatus;
  typing_indicators : gmap (Z * Z) Z;    (* unique (conversation, user) -> started_at *)
  message_seq : Z                        (* the last id the message table gave out *)
}.

Definition set_users (f : gmap Z bool -> gmap Z bool) (d : database) : database :=
  mkDb (f (users d)) (conversations d) (participants d) (messages d)
       (read_status d) (typing_indicators d) (message_seq d).

Definition set_conversations (f : gmap Z Z -> gmap Z Z) (d : database) : database :=
  mkDb (users d) (f (conversations d)) (participants d) (messages d)
       (read_status d) (typing_indicators d) (message_seq d).

Definition set_messages (f : list Message -> list Message) (d : database) : database :=
  mkDb (users d) (conversations d) (participants d) (f (messages d))
       (read_status d) (typing_indicators d) (message_seq d).

Definition set_read_status (f : list MessageReadStatus -> list MessageReadStatus)
    (d : database) : database :=
  mkDb (users d) (conversations d) (participants d) (messages d)
       (f (read_status d)) (typing_indicators d) (message_seq d).

Definition set_typing_indicators (f : gmap (Z * Z) Z -> gmap (Z * Z) Z)
    (d : database) : database :=
  mkDb (users d) (conversations d) (participants d) (messages d)
       (read_status d) (f (typing_indicators d)) (message_seq d).

Definition set_message_seq (f : Z -> Z) (d : database) : database :=
  mkDb (users d) (conversations d) (participants d) (messages d)
       (read_status d) (typing_indicators d) (f (message_seq d)).

(** *** [ConversationParticipant.get_unread_count] *)

Definition not_sent_by (u : Z) (m : Message) : bool :=
  negb (msg_sender m =? u).

Definition in_conversation (c : Z) (m : Message) : bool :=
  msg_conversation m =? c.

Definition get_unread_count (self : ConversationParticipant) (d : database) : nat :=
  let conversation_messages :=
    List.filter (in_conversation (cp_conversation self)) (messages d) in
  match last_read_at self with
  | Some t =>
      length (List.filter (not_sent_by (cp_user self))
                (List.filter (fun m => t <? created_at m) conversation_messages))
  | None =>
      length (List.filter (not_sent_by (cp_user self)) conversation_messages)
  end.

(** *** [TypingIndicator.is_active]

    The difference of two datetimes is a [timedelta], which Python keeps
    normalised as days, seconds (0 to 86399) and microseconds. *)

Record timedelta : Type := mkDelta {
  days : Z;
  seconds : Z;
  microseconds : Z
}.

Definition us_per_second : Z := 1000000.
Definition us_per_day : Z := 86400 * us_per_second.

(** [later - earlier] on datetimes. *)
Definition datetime_sub (later earlier : Z) : timedelta :=
  let d := later - earlier in
  mkDelta (d `div` us_per_day)
          ((d `mod` us_per_day) `div` us_per_second)
          (d `mod` us_per_second).

Definition is_active (now : Z) (self : TypingIndicator) : bool :=
  seconds (datetime_sub now (started_at self)) <? 5.

(** ** What travels: serialized messages, outbound frames, group events *)

(** [MessageSerializer(message).data] as [serialize_message] builds it: no
    request is in the serializer's context, so [is_read] is [False]. *)
Record message_data : Type := mkData {
  md_message : Message;
  md_sender : User;
  md_is_read : bool
}.

(** The JSON texts a consumer writes to its socket with [self.send]. *)
Inductive frame : Type :=
  | ErrorFrame (message : str)
  | ChatMessageFrame (message : message_data)
  | TypingFrame (user_id : Z) (uname : str) (is_typing : json)
  | UserStatusFrame (user_id : Z) (uname : str) (status : str).

(** The dicts handed to [channel_layer.group_send]; the ['type'] key names
    the method of the receiving consumer that handles the event. *)
Inductive event : Type :=
  | EvUserStatus (user_id : Z) (uname : str) (status : str)
  | EvChatMessage (message : message_data)
  | EvTypingIndicator (user_id : Z) (uname : str) (is_typing : json).

(** ** Consumer instances and the hub *)

Inductive ws_state : Type := Connecting | Accepted | Closed.

(** One [ChatConsumer] instance: the attributes [connect] sets, the state
    of its socket, and the frames it has sent so far, oldest first. *)
Record ChatConsumer : Type := mkConsumer {
  conversation_id : Z;
  conversation_group_name : str;
  user : User;
  ws : ws_state;
  sent : list frame
}.

Record hub : Type := mkHub {
  db : database;
  groups : gmap str (gset str);          (* group name -> channel names *)
  consumers : gmap str ChatConsumer      (* channel name -> instance *)
}.

Definition set_db (f : database -> database) (h : hub) : hub :=
  mkHub (f (db h)) (groups h) (consumers h).

Definition set_groups (f : gmap str (gset str) -> gmap str (gset str)) (h : hub) : hub :=
  mkHub (db h) (f (groups h)) (consumers h).

Definition set_consumers (f : gmap str ChatConsumer -> gmap str ChatConsumer)
    (h : hub) : hub :=
  mkHub (db h) (groups h) (f (consumers h)).

(** A coroutine's outcome. *)
Abbreviation outcome := (hub * option exn)%type.

Definition returns (h : hub) : outcome := (h, None).
Definition raises (e : exn) (h : hub) : outcome := (h, Some e).

(** *** Methods that act on the instance itself *)

Definition send (f : frame) (c : ChatConsumer) : ChatConsumer :=
  mkConsumer (conversation_id c) (conversation_group_name c) (user c) (ws c)
             (sent c ++ [f]).

Definition set_ws (s : ws_state) (c : ChatConsumer) : ChatConsumer :=
  mkConsumer (conversation_id c) (conversation_group_name c) (user c) s (sent c).

Definition chat_message_handler (message : message_data) (self : ChatConsumer)
    : ChatConsumer :=
  send (ChatMessageFrame message) self.

Definition typing_indicator_handler (user_id : Z) (uname : str) (is_typing : json)
    (self : ChatConsumer) : ChatConsumer :=
  if negb (user_id =? id (user self))
  then send (TypingFrame user_id uname is_typing) self
  else self.

Definition user_status (user_id : Z) (uname : str) (status : str)
    (self : ChatConsumer) : ChatConsumer :=
  send (UserStatusFrame user_id uname status) self.

(** The consumer's dispatch of a group event to the method it names. *)
Definition dispatch (ev : event) (self : ChatConsumer) : ChatConsumer :=
  match ev with
  | EvUserStatus u n s => user_status u n s self
  | EvChatMessage m => chat_message_handler m self
  | EvTypingIndicator u n t => typing_indicator_handler u n t self
  end.

(** *** The channel layer *)

Definition members (g : str) (h : hub) : gset str := groups h !!! g.

Definition group_add (g ch : str) (h : hub) : hub :=
  set_groups (fun gs => <[g := {[ch]} ∪ gs !!! g]> gs) h.

Definition group_discard (g ch : str) (h : hub) : hub :=
  set_groups (fun gs => <[g := gs !!! g ∖ {[ch]}]> gs) h.

(** Every channel of the group gets the event; the consumer listening on
    it handles the event at once. *)
Definition group_send (g : str) (ev : event) (h : hub) : hub :=
  set_consumers
    (map_imap (fun ch c =>
       Some (if bool_decide (ch ∈ members g h) then dispatch ev c else c))) h.

(** *** Methods that talk to the database *)

(** [filter(conversation_id=..., user=...).exists()], for a conversation id
    the column holds ([in_db_range]) and a signed-in user. *)
Definition check_participant (self : ChatConsumer) (d : database) : bool :=
  existsb (fun p => (cp_conversation p =? conversation_id self)
                    && (cp_user p =? id (user self)))
          (participants d).

(** The id the next [INSERT] into the message table gets. The key is an
    auto-incremented column: ids go up by one and the id of a deleted row
    is not given out again. *)
Definition next_message_id (d : database) : Z := message_seq d + 1.

(** The one failure [save_message] provides for is a conversation that is
    no longer there; it then returns [None]. *)
Definition save_message (self : ChatConsumer) (content : str) (now : Z)
    (d : database) : database * option Message :=
  match conversations d !! conversation_id self with
  | Some _ =>
      let message :=
        mkMessage (next_message_id d) (conversation_id self) (id (user self))
                  (py "text") content now None false in
      let d := set_messages (fun ms => ms ++ [message]) d in
      let d := set_message_seq (fun _ => msg_id message) d in
      let d := set_conversations <[conversation_id self := now]> d in
      (d, Some message)
  | None => (d, None)
  end.

Definition serialize_message (self : ChatConsumer) (message : Message) : message_data :=
  mkData message (user self) false.

(** [User.objects.filter(id=...).update(is_online=...)]: no row, no write. *)
Definition update_online_status (self : ChatConsumer) (is_online : bool)
    (d : database) : database :=
  set_users (alter (fun _ => is_online) (id (user self))) d.

(** [update_or_create]: the row of the pair is re-stamped, or created; a
    new row for a conversation that is gone violates its foreign key. *)
Definition add_typing_indicator (self : ChatConsumer) (now : Z) (d : database)
    : database * option exn :=
  match conversations d !! conversation_id self with
  | Some _ =>
      (set_typing_indicators
         <[(conversation_id self, id (user self)) := now]> d, None)
  | None =>
      if bool_decide (is_Some (typing_indicators d !! (conversation_id self, id (user self))))
      then (set_typing_indicators
              <[(conversation_id self, id (user self)) := now]> d, None)
      else (d, Some IntegrityError)
  end.

Definition remove_typing_indicator (self : ChatConsumer) (d : database) : database :=
  set_typing_indicators (delete (conversation_id self, id (user self))) d.

Definition same_pair (message user_id : Z) (r : MessageReadStatus) : bool :=
  (rs_message r =? message) && (rs_user r =? user_id).

(** [MessageReadStatus.objects.get_or_create(message=..., user=...)]. *)
Definition get_or_create (message user_id now : Z) (rows : list MessageReadStatus)
    : list MessageReadStatus * option exn :=
  match List.filter (same_pair message user_id) rows with
  | [] => (rows ++ [mkReadStatus message user_id now], None)
  | [_] => (rows, None)
  | _ => (rows, Some MultipleObjectsReturned)
  end.

(** [Message.objects.get(id=...)]; [None] stands for [Message.DoesNotExist]. *)
Definition get_message (message_id : Z) (d : database) : option Message :=
  List.find (fun m => msg_id m =? message_id) (messages d).

Definition mark_message_read (self : ChatConsumer) (message_id now : Z)
    (d : database) : database * option exn :=
  match get_message message_id d with
  | Some message =>
      let '(rows, e) :=
        get_or_create (msg_id message) (id (user self)) now (read_status d) in
      (set_read_status (fun _ => rows) d, e)
  | None => (d, None)
  end.

(** ** The coroutines of [ChatConsumer]

    [self] is the instance's channel name. The instance attributes are read
    from the hub; reading them before [connect] has set them is an
    [AttributeError]. *)

Definition on_self (self : str) (f : ChatConsumer -> ChatConsumer) (h : hub) : hub :=
  set_consumers (alter f self) h.

Definition accept (self : str) : hub -> hub := on_self self (set_ws Accepted).
Definition close (self : str) : hub -> hub := on_self self (set_ws Closed).

(** What the ASGI scope of a new connection carries. *)
Record scope : Type := mkScope {
  url_conversation_id : Z;
  scope_user : User
}.

Definition group_name_of (conversation : Z) : str :=
  py "chat_" ++ py (pretty conversation).

Definition connect (self : str) (sc : scope) (h : hub) : outcome :=
  let me :=
    mkConsumer (url_conversation_id sc) (group_name_of (url_conversation_id sc))
               (scope_user sc) Connecting [] in
  let h := set_consumers <[self := me]> h in
  if negb (is_authenticated (user me)) then returns (close self h)
  else if negb (check_participant me (db h)) then returns (close self h)
  else
    let h := group_add (conversation_group_name me) self h in
    let h := accept self h in
    let h := set_db (update_online_status me true) h in
    returns (group_send (conversation_group_name me)
               (EvUserStatus (id (user me)) (username (user me)) (py "online")) h).

(** [disconnect] is the last coroutine a consumer runs: when it returns,
    the consumer stops. The copy of the "offline" event that [group_send]
    queued on the consumer's own channel is therefore never handled, and
    no instance listens on the channel afterwards. The instance's user is
    taken to be a signed-in one; the queries of the teardown are not
    followed for [AnonymousUser]. *)
Definition disconnect (self : str) (close_code : Z) (h : hub) : outcome :=
  match consumers h !! self with
  | None => raises AttributeError h
  | Some me =>
      let h := set_db (update_online_status me false) h in
      let h := set_db (remove_typing_indicator me) h in
      let h := group_send (conversation_group_name me)
                 (EvUserStatus (id (user me)) (username (user me)) (py "offline")) h in
      let h := group_discard (conversation_group_name me) self h in
      returns (set_consumers (delete self) h)
  end.

Definition handle_chat_message (self : str) (data : dict) (now : Z) (h : hub) : outcome :=
  match consumers h !! self with
  | None => raises AttributeError h
  | Some me =>
      match dict_get_default (py "content") (JStr []) data with
      | JStr s =>
          let content := strip s in
          if bool_decide (content = []) then returns h
          else
            let '(d, saved) := save_message me content now (db h) in
            let h := set_db (fun _ => d) h in
            match saved with
            | Some message =>
                let message_data := serialize_message me message in
                returns (group_send (conversation_group_name me)
                           (EvChatMessage message_data) h)
            | None => returns h
            end
      | _ => raises AttributeError h
      end
  end.

Definition handle_typing (self : str) (data : dict) (now : Z) (h : hub) : outcome :=
  match consumers h !! self with
  | None => raises AttributeError h
  | Some me =>
      let is_typing := dict_get_default (py "is_typing") (JBool false) data in
      let '(d, e) :=
        if truthy is_typing then add_typing_indicator me now (db h)
        else (remove_typing_indicator me (db h), None) in
      let h := set_db (fun _ => d) h in
      match e with
      | Some e => raises e h
      | None =>
          returns (group_send (conversation_group_name me)
                     (EvTypingIndicator (id (user me)) (username (user me)) is_typing) h)
      end
  end.

(** The value of an [id=...] lookup as the integer field prepares it:
    [int(value)], whose [TypeError] or [ValueError] the field raises again.
    [None] never gets here: it fails the truth test before. *)
Definition to_pk (value : json) : exn + Z :=
  match value with
  | JInt z => inr z
  | JBool b => inr (Z.b2z b)
  | JStr s => from_option inr (inl ValueError) (int_of_str s)
  | JNull | JList _ | JDict _ => inl TypeError
  end.

Definition handle_read_receipt (self : str) (data : dict) (now : Z) (h : hub) : outcome :=
  match consumers h !! self with
  | None => raises AttributeError h
  | Some me =>
      match dict_get (py "message_id") data with
      | None => returns h
      | Some message_id =>
          if truthy message_id then
            match to_pk message_id with
            | inr z =>
                let '(d, e) := mark_message_read me z now (db h) in
                (set_db (fun _ => d) h, e)
            | inl e => raises e h
            end
          else returns h
      end
  end.

(** The text of an inbound frame, as [json.loads] sees it. *)
Inductive text_data : Type :=
  | Malformed                  (* [json.loads] raises [JSONDecodeError] *)
  | TooDeep                    (* [json.loads] raises [RecursionError] *)
  | Loaded (data : json).

Definition receive (self : str) (text : text_data) (now : Z) (h : hub) : outcome :=
  match text with
  | Malformed => returns (on_self self (send (ErrorFrame (py "Invalid JSON"))) h)
  | TooDeep => raises RecursionError h
  | Loaded (JDict data) =>
      let message_type := dict_get (py "type") data in
      if eq_str message_type "chat_message" then handle_chat_message self data now h
      else if eq_str message_type "typing" then handle_typing self data now h
      else if eq_str message_type "read_receipt" then handle_read_receipt self data now h
      else returns (on_self self (send (ErrorFrame (py "Unknown message type"))) h)
  | Loaded _ => raises AttributeError h
  end.

(** The two ways an inbound frame can be bad, with the text of the error
    frame that answers it. *)
Inductive protocol_error : text_data -> str -> Prop :=
  | bad_json : protocol_error Malformed (py "Invalid JSON")
  | bad_type (data : dict) :
      dict_get (py "type") data <> Some (JStr (py "chat_message")) ->
      dict_get (py "type") data <> Some (JStr (py "typing")) ->
      dict_get (py "type") data <> Some (JStr (py "read_receipt")) ->
      protocol_error (Loaded (JDict data)) (py "Unknown message type").

(** ** Two [get_or_create] calls racing for one (message, user) pair

    The ORM's [get_or_create] is a [get], then, if nothing was found, an
    [INSERT] that the table's [unique_together] constraint rejects with
    [IntegrityError] when the row has appeared meanwhile, in which case
    [get] is tried once more. Each of these three is one atomic step on the
    table; two calls interleave step by step. *)

Inductive goc_pc : Type :=
  | AtGet
  | AtCreate
  | AtRetry
  | Finished (created : bool)
  | Failed (e : exn).

Definition goc_step (message user_id now : Z) (pc : goc_pc)
    (rows : list MessageReadStatus) : goc_pc * list MessageReadStatus :=
  match pc with
  | AtGet =>
      match List.filter (same_pair message user_id) rows with
      | [] => (AtCreate, rows)
      | [_] => (Finished false, rows)
      | _ => (Failed MultipleObjectsReturned, rows)
      end
  | AtCreate =>
      match List.filter (same_pair message user_id) rows with
      | [] => (Finished true, rows ++ [mkReadStatus message user_id now])
      | _ => (AtRetry, rows)
      end
  | AtRetry =>
      match List.filter (same_pair message user_id) rows with
      | [] => (Failed IntegrityError, rows)
      | [_] => (Finished false, rows)
      | _ => (Failed MultipleObjectsReturned, rows)
      end
  | Finished _ | Failed _ => (pc, rows)
  end.

(** One call run on its own, step after step. *)
Definition goc_alone (message user_id now : Z) (rows : list MessageReadStatus)
    : goc_pc * list MessageReadStatus :=
  let '(pc, rows) := goc_step message user_id now AtGet rows in
  let '(pc, rows) := goc_step message user_id now pc rows in
  goc_step message user_id now pc rows.

Record race : Type := mkRace {
  first_pc : goc_pc;
  second_pc : goc_pc;
  table : list MessageReadStatus
}.

(** The scheduler picks which call takes the next step: [true] for the
    first call, [false] for the second. *)
Definition race_step (message user_id now1 now2 : Z) (pick : bool) (r : race) : race :=
  if pick then
    let '(pc, rows) := goc_step message user_id now1 (first_pc r) (table r) in
    mkRace pc (second_pc r) rows
  else
    let '(pc, rows) := goc_step message user_id now2 (second_pc r) (table r) in
    mkRace (first_pc r) pc rows.

Definition race_run (message user_id now1 now2 : Z) (schedule : list bool) (r : race)
    : race :=
  foldl (fun r pick => race_step message user_id now1 now2 pick r) r schedule.

(** How many rows the table holds for a pair. *)
Definition rows_for (message user_id : Z) (rows : list MessageReadStatus) : nat :=
  length (List.filter (same_pair message user_id) rows).

(** What the invariant of the race asks of a call at [pc] when the table
    holds [k] rows for the pair: a call that has seen or made the row can
    only be there if the row is. *)
Definition pc_ok (pc : goc_pc) (k : nat) : Prop :=
  match pc with
  | AtGet | AtCreate => True
  | AtRetry | Finished _ => k = 1%nat
  | Failed _ => False
  end.

(** Steps a call at [pc] may still take. *)
Definition steps_left (pc : goc_pc) : nat :=
  match pc with
  | AtGet => 3
  | AtCreate => 2
  | AtRetry => 1
  | Finished _ | Failed _ => 0
  end.

(** Steps the schedule gives to one of the two calls. *)
Definition turns (who : bool) (schedule : list bool) : nat :=
  length (List.filter (Bool.eqb who) schedule).

(** ** Running and observing the hub *)

(** Thread a list of coroutine calls through the hub, as long as none
    raises. *)
Fixpoint run (calls : list (hub -> outcome)) (h : hub) : outcome :=
  match calls with
  | [] => returns h
  | call :: calls =>
      match call h with
      | (h, None) => run calls h
      | (h, Some e) => raises e h
      end
  end.

(** The frames channel [ch] has sent, [[]] when no instance listens on it. *)
Definition frames_of (ch : str) (h : hub) : list frame :=
  from_option sent [] (consumers h !! ch).

(** The sessions of user [u] that are joined to their conversation's group. *)
Definition joined_sessions (u : Z) (h : hub) : nat :=
  size (filter (fun kc : str * ChatConsumer =>
                  id (user (snd kc)) = u /\
                  fst kc ∈ members (conversation_group_name (snd kc)) h)
               (consumers h)).

(** The instance listening on [ch]; a closed anonymous one when there is
    none. *)
Definition session_of (ch : str) (h : hub) : ChatConsumer :=
  default (mkConsumer 0 [] (mkUser 0 [] false) Closed []) (consumers h !! ch).

(** ** A small world to run the hub in

    Three users; conversation 1 is between alice and bob, conversation 2
    between alice and carol. Nobody is connected yet. *)

Definition alice : User := mkUser 1 (py "alice") true.
Definition bob : User := mkUser 2 (py "bob") true.
Definition carol : User := mkUser 3 (py "carol") true.

Definition db0 : database :=
  mkDb (list_to_map [(1, false); (2, false); (3, false)])
       (list_to_map [(1, 0); (2, 0)])
       [ mkParticipant 1 1 false None; mkParticipant 1 2 false None;
         mkParticipant 2 1 false None; mkParticipant 2 3 false None ]
       [] [] ∅ 0.

Definition hub0 : hub := mkHub db0 ∅ ∅.

(** Alice (channel "a") and bob (channel "b") are joined to conversation 1. *)
Definition hub_pair : hub :=
  (run [connect (py "a") (mkScope 1 alice); connect (py "b") (mkScope 1 bob)] hub0).1.

(** Alice then joins conversation 1 from a second device (channel "a2"). *)
Definition hub_two_devices : hub :=
  (connect (py "a2") (mkScope 1 alice) hub_pair).1.

(** Conversation 1 is deleted while alice and bob are connected to it. *)
Definition hub_orphaned : hub :=
  set_db (set_conversations (delete 1)) hub_pair.

(** Bob is joined to conversation 1, carol (channel "c") to conversation 2. *)
Definition hub_bob_and_carol : hub :=
  (run [connect (py "b") (mkScope 1 bob); connect (py "c") (mkScope 2 carol)] hub0).1.

(** Alice has said "hi" in conversation 1 at time 10. *)
Definition chat_hi : dict :=
  [(py "type", JStr (py "chat_message")); (py "content", JStr (py "hi"))].

Definition hub_hi : hub := (receive (py "a") (Loaded (JDict chat_hi)) 10 hub_pair).1.

Definition typing_on : dict :=
  [(py "type", JStr (py "typing")); (py "is_typing", JBool true)].

Definition read_receipt_for (message_id : Z) : dict :=
  [(py "type", JStr (py "read_receipt")); (py "message_id", JInt message_id)].

(** ** The serializer method and the REST views that share the tables

    [chat/serializers.py] and [chat/views.py] read and write the tables the
    hub works on. A view is a function of the request's user (the views
    require authentication), its arguments, the time and the database; it
    answers with a response or lets an exception escape. *)

(** [MessageSerializer.get_is_read]; [request_user] is [None] when the
    serializer was given no request. *)
Definition get_is_read (request_user : option User) (obj : Message) (d : database)
    : bool :=
  match request_user with
  | Some u =>
      if is_authenticated u
      then existsb (same_pair (msg_id obj) (id u)) (read_status d)
      else false
  | None => false
  end.

Definition set_participants
    (f : list ConversationParticipant -> list ConversationParticipant)
    (d : database) : database :=
  mkDb (users d) (conversations d) (f (participants d)) (messages d)
       (read_status d) (typing_indicators d) (message_seq d).

(** What [Model.objects.get] can come to. *)
Inductive got (A : Type) : Type :=
  | Got (a : A)
  | NoRow           (* [DoesNotExist] *)
  | ManyRows        (* [MultipleObjectsReturned] *).
Arguments Got {A} a.
Arguments NoRow {A}.
Arguments ManyRows {A}.

Definition is_row (conversation user_id : Z) (p : ConversationParticipant) : bool :=
  (cp_conversation p =? conversation) && (cp_user p =? user_id).

(** [Conversation.objects.get(id=..., participants__user=request.user)]:
    the join has one line per participant row of the user. *)
Definition get_conversation_for (conversation user_id : Z) (d : database) : got Z :=
  match conversations d !! conversation with
  | None => NoRow
  | Some _ =>
      match List.filter (is_row conversation user_id) (participants d) with
      | [] => NoRow
      | [_] => Got conversation
      | _ => ManyRows
      end
  end.

(** The bodies the views answer with. *)
Inductive response : Type :=
  | HTTP_200_OK (message : str)
  | HTTP_200_OK_data (message : str) (content : json) (instance : Message)
                     (is_read : bool)
  | HTTP_400_BAD_REQUEST (error : str)
  | HTTP_404_NOT_FOUND (error : str).

Inductive answer : Type :=
  | Responds (r : response)
  | Fails (e : exn).

(** *** [MessageMarkReadView.post] *)

Definition touch_last_read (conversation user_id now : Z)
    (p : ConversationParticipant) : ConversationParticipant :=
  if is_row conversation user_id p
  then mkParticipant (cp_conversation p) (cp_user p) (cp_is_admin p) (Some now)
  else p.

(** [conversation.messages.exclude(sender=user).exclude(read_status__user=user)]. *)
Definition unread_messages (conversation user_id : Z) (d : database) : list Message :=
  List.filter
    (fun m => negb (existsb (same_pair (msg_id m) user_id) (read_status d)))
    (List.filter (not_sent_by user_id)
       (List.filter (in_conversation conversation) (messages d))).

(** The loop over the unread messages; an exception ends it. *)
Fixpoint mark_each (ms : list Message) (user_id now : Z)
    (rows : list MessageReadStatus) : list MessageReadStatus * option exn :=
  match ms with
  | [] => (rows, None)
  | m :: ms =>
      match get_or_create (msg_id m) user_id now rows with
      | (rows, None) => mark_each ms user_id now rows
      | (rows, Some e) => (rows, Some e)
      end
  end.

Definition mark_read_post (request_user : User) (conversation now : Z)
    (d : database) : database * answer :=
  match get_conversation_for conversation (id request_user) d with
  | NoRow => (d, Responds (HTTP_404_NOT_FOUND (py "Conversation not found")))
  | ManyRows => (d, Fails MultipleObjectsReturned)
  | Got conversation =>
      let d :=
        set_participants
          (map (touch_last_read conversation (id request_user) now)) d in
      let '(rows, e) :=
        mark_each (unread_messages conversation (id request_user) d)
                  (id request_user) now (read_status d) in
      let d := set_read_status (fun _ => rows) d in
      match e with
      | Some e => (d, Fails e)
      | None => (d, Responds (HTTP_200_OK (py "Messages marked as read")))
      end
  end.

(** *** [Message.mark_as_edited], [MessageUpdateView.put] and
    [MessageDeleteView.delete] *)

(** [Message.objects.get(id=..., sender=request.user)]. *)
Definition get_own_message (message_id user_id : Z) (d : database) : option Message :=
  List.find (fun m => (msg_id m =? message_id) && (msg_sender m =? user_id))
            (messages d).

Definition edited (now : Z) (m : Message) : Message :=
  mkMessage (msg_id m) (msg_conversation m) (msg_sender m) (msg_type m)
            (msg_content m) (created_at m) (Some now) true.

(** [save(update_fields=['is_edited', 'edited_at'])] writes these two
    columns of the instance's row and no other. The instance comes back
    with the two attributes set. *)
Definition mark_as_edited (self : Message) (now : Z) (d : database)
    : Message * database :=
  (edited now self,
   set_messages
     (map (fun m => if msg_id m =? msg_id self then edited now m else m)) d).

(** The new content lives on the instance only; the response serializes
    the instance, so it is carried beside it. *)
Definition message_update_put (request_user : User) (message_id : Z) (data : dict)
    (now : Z) (d : database) : database * answer :=
  match get_own_message message_id (id request_user) d with
  | None =>
      (d, Responds (HTTP_404_NOT_FOUND
                      (py "Message not found or you are not the sender")))
  | Some message =>
      match dict_get (py "content") data with
      | Some content =>
          if truthy content then
            let '(message, d) := mark_as_edited message now d in
            (d, Responds (HTTP_200_OK_data (py "Message updated successfully")
                            content message
                            (get_is_read (Some request_user) message d)))
          else (d, Responds (HTTP_400_BAD_REQUEST (py "Content is required")))
      | None => (d, Responds (HTTP_400_BAD_REQUEST (py "Content is required")))
      end
  end.

(** [message.delete()]: the read statuses go with the message
    ([on_delete=CASCADE]). *)
Definition delete_message (message : Message) (d : database) : database :=
  set_read_status
    (List.filter (fun r => negb (rs_message r =? msg_id message)))
    (set_messages
       (List.filter (fun m => negb (msg_id m =? msg_id message))) d).

Definition message_delete (request_user : User) (message_id : Z) (d : database)
    : database * answer :=
  match get_own_message message_id (id request_user) d with
  | None =>
      (d, Responds (HTTP_404_NOT_FOUND
                      (py "Message not found or you are not the sender")))
  | Some message =>
      (delete_message message d,
       Responds (HTTP_200_OK (py "Message deleted successfully")))
  end.

(** *** [ConversationDeleteView.delete] *)

(** [conversation.delete()] takes along what points at the conversation:
    its participants, its messages with their read statuses, and its
    typing indicators. *)
Definition delete_conversation (conversation : Z) (d : database) : database :=
  mkDb (users d)
       (delete conversation (conversations d))
       (List.filter (fun p => negb (cp_conversation p =? conversation))
                    (participants d))
       (List.filter (fun m => negb (in_conversation conversation m)) (messages d))
       (List.filter
          (fun r => negb (existsb (fun m => (msg_id m =? rs_message r)
                                            && in_conversation conversation m)
                                  (messages d)))
          (read_status d))
       (filter (fun kv : Z * Z * Z => fst (fst kv) <> conversation)
               (typing_indicators d))
       (message_seq d).

Definition conversation_delete (request_user : User) (conversation : Z)
    (d : database) : database * answer :=
  match get_conversation_for conversation (id request_user) d with
  | NoRow => (d, Responds (HTTP_404_NOT_FOUND (py "Conversation not found")))
  | ManyRows => (d, Fails MultipleObjectsReturned)
  | Got conversation =>
      let d :=
        set_participants
          (List.filter (fun p => negb (is_row conversation (id request_user) p))) d in
      if Nat.eqb (length (List.filter (fun p => cp_conversation p =? conversation)
                                      (participants d))) 0
      then (delete_conversation conversation d,
            Responds (HTTP_200_OK (py "Conversation deleted")))
      else (d, Responds (HTTP_200_OK (py "Left conversation")))
  end.

(** *** [Conversation.get_other_user]

    The conversation's type is the method's [self.type]; the participant
    rows are kept in the order they were made, which is the model's
    ordering by [joined_at]. The answer is the other user's id. *)
Definition get_other_user (conversation_type : str) (conversation user_id : Z)
    (d : database) : option Z :=
  if bool_decide (conversation_type = py "private") then
    match List.filter (fun p => negb (cp_user p =? user_id))
            (List.filter (fun p => cp_conversation p =? conversation)
                         (participants d)) with
    | p :: _ => Some (cp_user p)
    | [] => None
    end
  else None.

(** *** [ConversationCreateSerializer.validate]

    The fields have been through their own checks: the type is one of the
    two choices and the id list is a list of integers. A missing name is
    [None]. *)
Inductive validation : Type :=
  | Valid
  | ValidationError (field : str) (message : str).

Definition validate (conv_type : str) (name : option str) (participant_ids : list Z)
    (d : database) : validation :=
  if bool_decide (conv_type = py "private")
     && negb (length participant_ids =? 1)%nat
  then ValidationError (py "participant_ids")
         (py "Private conversation must have exactly one other participant.")
  else if bool_decide (conv_type = py "group")
          && (length participant_ids <? 1)%nat
  then ValidationError (py "participant_ids")
         (py "Group conversation must have at least one other participant.")
  else if bool_decide (conv_type = py "group")
          && negb (truthy (from_option JStr JNull name))
  then ValidationError (py "name") (py "Group conversation must have a name.")
  else if negb (size (filter (fun u => u ∈ participant_ids) (dom (users d)))
                =? length participant_ids)%nat
  then ValidationError (py "participant_ids")
         (py "One or more participant IDs are invalid.")
  else Valid.

(** [unique_together = ['message', 'user']] on the read statuses. *)
Definition unique_together (rows : list MessageReadStatus) : Prop :=
  forall message user_id, (rows_for message user_id rows <= 1)%nat.

(** * Properties *)

(** Closed goals about the small world are settled by evaluation. *)
Ltac by_computation :=
  vm_compute;
  lazymatch goal with
  | |- _ = _ => reflexivity
  | |- _ <> _ => let H := fresh in intro H; discriminate H
  | |- _ -> False => let H := fresh in intro H; discriminate H
  | |- True => exact I
  | |- ex _ => eexists; reflexivity
  | |- _ => solve [repeat constructor]
  end.
Ltac is_member := refine (bool_decide_unpack _ _); vm_compute; exact I.
Ltac each_by_computation :=
  cbv zeta; repeat match goal with |- _ /\ _ => split end; by_computation.

(** ** Basic facts about the building blocks *)

Section strip_facts.

Lemma lstrip_spaces (s : str) : forallb isspace s = true -> lstrip s = [].
Proof.
  induction s as [|c s IH]; simpl; [done|].
  intros [Hc Hs]%andb_prop. rewrite Hc. auto.
Qed.

Lemma lstrip_nil_spaces (s : str) : lstrip s = [] -> forallb isspace s = true.
Proof.
  induction s as [|c s IH]; simpl; [done|].
  destruct (isspace c); [auto | discriminate].
Qed.

(** What [lstrip] leaves is empty or starts with a character that is not
    white space. *)
Lemma lstrip_head (s : str) :
  lstrip s = [] \/ exists c t, lstrip s = c :: t /\ isspace c = false.
Proof.
  induction s as [|c s IH]; simpl; [by left|].
  destruct (isspace c) eqn:Hc; [done|]. right. by exists c, s.
Qed.

Lemma forallb_reverse (f : N -> bool) (s : str) :
  forallb f (reverse s) = forallb f s.
Proof.
  induction s as [|c s IH]; [done|].
  rewrite reverse_cons, forallb_app, IH. simpl.
  rewrite andb_true_r. apply andb_comm.
Qed.

Lemma strip_spaces (s : str) : forallb isspace s = true -> strip s = [].
Proof.
  intros H. unfold strip, rstrip. by rewrite (lstrip_spaces s H).
Qed.

Lemma strip_nil_spaces (s : str) : strip s = [] -> forallb isspace s = true.
Proof.
  unfold strip, rstrip. intros H.
  apply (f_equal reverse) in H. rewrite reverse_involutive in H.
  change (reverse []) with (@nil N) in H.
  apply lstrip_nil_spaces in H. rewrite forallb_reverse in H.
  destruct (lstrip_head s) as [E | (c & t & E & Hc)].
  - by apply lstrip_nil_spaces.
  - rewrite E in H. simpl in H. by rewrite Hc in H.
Qed.

End strip_facts.

Section channel_layer_facts.

Implicit Types (h : hub) (g ch self : str) (ev : event) (c : ChatConsumer).

Lemma group_send_db g ev h : db (group_send g ev h) = db h.
Proof. done. Qed.

Lemma group_send_groups g ev h : groups (group_send g ev h) = groups h.
Proof. done. Qed.

Lemma group_send_lookup g ev h ch :
  consumers (group_send g ev h) !! ch =
  (fun c => if bool_decide (ch ∈ members g h) then dispatch ev c else c)
    <$> consumers h !! ch.
Proof.
  unfold group_send. simpl. rewrite map_lookup_imap.
  by destruct (consumers h !! ch).
Qed.

Lemma group_send_member g ev h ch c :
  consumers h !! ch = Some c -> ch ∈ members g h ->
  consumers (group_send g ev h) !! ch = Some (dispatch ev c).
Proof.
  intros Hc Hin. rewrite group_send_lookup, Hc. simpl.
  by rewrite bool_decide_eq_true_2.
Qed.

Lemma group_send_outsider g ev h ch :
  ch ∉ members g h ->
  consumers (group_send g ev h) !! ch = consumers h !! ch.
Proof.
  intros Hout. rewrite group_send_lookup.
  rewrite bool_decide_eq_false_2 by done. by destruct (consumers h !! ch).
Qed.

Lemma members_group_add g ch h : members g (group_add g ch h) = {[ch]} ∪ members g h.
Proof. unfold members, group_add. simpl. by rewrite lookup_total_insert_eq. Qed.

Lemma members_group_discard g ch h :
  members g (group_discard g ch h) = members g h ∖ {[ch]}.
Proof. unfold members, group_discard. simpl. by rewrite lookup_total_insert_eq. Qed.

Lemma on_self_lookup self (f : ChatConsumer -> ChatConsumer) h :
  consumers (on_self self f h) !! self = f <$> consumers h !! self.
Proof. unfold on_self. simpl. apply lookup_alter_eq. Qed.

Lemma on_self_lookup_ne self ch (f : ChatConsumer -> ChatConsumer) h :
  ch <> self -> consumers (on_self self f h) !! ch = consumers h !! ch.
Proof. intros Hne. unfold on_self. simpl. by apply lookup_alter_ne. Qed.

End channel_layer_facts.

(** ** Frames the protocol does not know *)

Lemma eq_str_false (v : option json) (lit : string) :
  v <> Some (JStr (py lit)) -> eq_str v lit = false.
Proof.
  intros Hne. destruct v as [[]|]; simpl; try done.
  apply bool_decide_eq_false_2. congruence.
Qed.

Lemma eq_str_true (lit : string) : eq_str (Some (JStr (py lit))) lit = true.
Proof. simpl. by apply bool_decide_eq_true_2. Qed.

Lemma receive_protocol_error self text message now h :
  protocol_error text message ->
  receive self text now h = returns (on_self self (send (ErrorFrame message)) h).
Proof.
  intros [|data H1 H2 H3]; simpl; [done|].
  by rewrite !eq_str_false.
Qed.

(** C9. A frame whose text is valid JSON but no object (a list, a number,
    a string, [true], [null]) is not reported: [data.get] raises
    [AttributeError], which [receive] does not catch. No error frame is
    sent and the exception leaves the coroutine. So it is, with
    [RecursionError], for a text nested too deeply for [json.loads]. The
    frame [[1, 2]] on alice's session is the case in point. *)
Theorem C9_frame_that_is_no_object_is_not_reported
    (self : str) (now : Z) (h : hub) (l : list json) (z : Z) (s : str) (b : bool) :
  receive self (Loaded (JList l)) now h = raises AttributeError h /\
  receive self (Loaded (JInt z)) now h = raises AttributeError h /\
  receive self (Loaded (JStr s)) now h = raises AttributeError h /\
  receive self (Loaded (JBool b)) now h = raises AttributeError h /\
  receive self (Loaded JNull) now h = raises AttributeError h /\
  receive self TooDeep now h = raises RecursionError h /\
  (receive (py "a") (Loaded (JList [JInt 1; JInt 2])) 10 hub_pair).2
    = Some AttributeError /\
  frames_of (py "a") (receive (py "a") (Loaded (JList [JInt 1; JInt 2])) 10 hub_pair).1
    = frames_of (py "a") hub_pair.
Proof. repeat split. Qed.

(** X24. A frame that is not JSON, or a JSON object whose [type] is none
    of [chat_message], [typing], [read_receipt], is answered with one error
    frame on the session's own socket and nothing else: [receive] returns
    normally, the socket state, the groups and the database are as before,
    no other session sees anything, and the session, still a member of its
    group, handles the next group event. *)
Theorem X24_unknown_frame_is_answered_with_an_error_frame
    (self : str) (me : ChatConsumer) (text : text_data) (message : str)
    (now : Z) (h : hub) :
  consumers h !! self = Some me ->
  self ∈ members (conversation_group_name me) h ->
  protocol_error text message ->
  exists h',
    receive self text now h = (h', None) /\
    consumers h' !! self = Some (send (ErrorFrame message) me) /\
    ws (send (ErrorFrame message) me) = ws me /\
    (forall ch, ch <> self -> consumers h' !! ch = consumers h !! ch) /\
    groups h' = groups h /\
    db h' = db h /\
    (forall ev,
       consumers (group_send (conversation_group_name me) ev h') !! self =
       Some (dispatch ev (send (ErrorFrame message) me))).
Proof.
  intros Hme Hin Herr. eexists. split; [by apply receive_protocol_error|].
  assert (consumers (on_self self (send (ErrorFrame message)) h) !! self
          = Some (send (ErrorFrame message) me)) as Hself
    by (by rewrite on_self_lookup, Hme).
  repeat split; try done.
  - intros ch Hne. by apply on_self_lookup_ne.
  - intros ev. by apply group_send_member.
Qed.

(** ** Chat messages *)

(** C7. A [chat_message] frame whose content is empty once stripped leaves
    the hub exactly as it was: no message row, no group event, no frame on
    any socket (the sender's included), and no exception. *)
Theorem C7_blank_chat_message_dropped_silently
    (self : str) (data : dict) (s : str) (now : Z) (h : hub) :
  is_Some (consumers h !! self) ->
  dict_get (py "type") data = Some (JStr (py "chat_message")) ->
  dict_get_default (py "content") (JStr []) data = JStr s ->
  strip s = [] ->
  receive self (Loaded (JDict data)) now h = returns h.
Proof.
  intros [me Hme] Htype Hcontent Hblank. simpl.
  rewrite Htype, eq_str_true. unfold handle_chat_message.
  rewrite Hme, Hcontent, Hblank. done.
Qed.

(** X3. A content is empty once stripped exactly when all of it is white
    space; the content of three spaces of C7 is the case in point. *)
Lemma blank_content (s : str) : strip s = [] <-> forallb isspace s = true.
Proof. split; [apply strip_nil_spaces | apply strip_spaces]. Qed.

Lemma handle_chat_message_not_saved self me data s now h :
  consumers h !! self = Some me ->
  dict_get_default (py "content") (JStr []) data = JStr s ->
  (save_message me (strip s) now (db h)).2 = None ->
  handle_chat_message self data now h = returns h.
Proof.
  intros Hme Hcontent Hsave. unfold handle_chat_message.
  rewrite Hme, Hcontent. case_bool_decide; [done|].
  revert Hsave. unfold save_message.
  destruct (conversations (db h) !! conversation_id me); [done|].
  intros _. by destruct h.
Qed.

(** C2, as the code has it. When [save_message] cannot store the message
    (it returns [None]: the conversation is gone), handling the frame
    changes nothing at all: nothing is broadcast, and the sender gets no
    frame either, error or otherwise. *)
Theorem C2_failed_save_sends_nothing
    (self : str) (me : ChatConsumer) (data : dict) (s : str) (now : Z) (h : hub) :
  consumers h !! self = Some me ->
  dict_get (py "type") data = Some (JStr (py "chat_message")) ->
  dict_get_default (py "content") (JStr []) data = JStr s ->
  (save_message me (strip s) now (db h)).2 = None ->
  receive self (Loaded (JDict data)) now h = returns h.
Proof.
  intros Hme Htype Hcontent Hsave. simpl. rewrite Htype, eq_str_true.
  by eapply handle_chat_message_not_saved.
Qed.

(** ** Fan-out of typing and chat events *)




(** ** Presence *)

Lemma connect_accepted self sc h :
  is_authenticated (scope_user sc) = true ->
  check_participant
    (mkConsumer (url_conversation_id sc) (group_name_of (url_conversation_id sc))
       (scope_user sc) Connecting []) (db h) = true ->
  let g := group_name_of (url_conversation_id sc) in
  let online :=
    UserStatusFrame (id (scope_user sc)) (username (scope_user sc)) (py "online") in
  let h' := (connect self sc h).1 in
  (connect self sc h).2 = None /\
  users (db h') = alter (fun _ => true) (id (scope_user sc)) (users (db h)) /\
  members g h' = {[self]} ∪ members g h /\
  consumers h' !! self =
    Some (mkConsumer (url_conversation_id sc) g (scope_user sc) Accepted [online]) /\
  (forall ch c, ch <> self -> consumers h !! ch = Some c -> ch ∈ members g h ->
     consumers h' !! ch = Some (send online c)).
Proof.
  intros Hauth Hpart g online h'. subst h'. unfold connect.
  cbn [user db set_consumers]. rewrite Hauth, Hpart. cbn [negb].
  cbn [conversation_group_name fst snd returns]. fold g.
  split; [done|]. split; [done|]. split.
  { unfold members, group_send, accept, on_self, group_add. simpl.
    by rewrite lookup_total_insert_eq. }
  split.
  - rewrite group_send_lookup. unfold members, accept, on_self, group_add. simpl.
    rewrite lookup_alter_eq, lookup_insert_eq, lookup_total_insert_eq. simpl.
    rewrite bool_decide_eq_true_2 by set_solver. done.
  - intros ch c Hne Hc Hin. rewrite group_send_lookup.
    unfold members, accept, on_self, group_add in *. simpl.
    rewrite lookup_alter_ne, lookup_insert_ne, lookup_total_insert_eq, Hc by done.
    simpl. rewrite bool_decide_eq_true_2 by set_solver. done.
Qed.

Lemma disconnect_effects self me code h :
  consumers h !! self = Some me ->
  let g := conversation_group_name me in
  let offline := UserStatusFrame (id (user me)) (username (user me)) (py "offline") in
  let h' := (disconnect self code h).1 in
  (disconnect self code h).2 = None /\
  users (db h') = alter (fun _ => false) (id (user me)) (users (db h)) /\
  typing_indicators (db h') =
    delete (conversation_id me, id (user me)) (typing_indicators (db h)) /\
  members g h' = members g h ∖ {[self]} /\
  consumers h' !! self = None /\
  (forall ch c, ch <> self -> consumers h !! ch = Some c -> ch ∈ members g h ->
     consumers h' !! ch = Some (send offline c)) /\
  (forall ch, ch <> self -> ch ∉ members g h -> consumers h' !! ch = consumers h !! ch).
Proof.
  intros Hme g offline h'. subst h'. unfold disconnect. rewrite Hme.
  cbn [fst snd returns]. fold g. split; [done|]. split; [done|]. split; [done|].
  split; [|split; [|split]].
  - unfold members, group_discard, group_send. simpl.
    by rewrite lookup_total_insert_eq.
  - cbn [set_consumers consumers]. apply lookup_delete_eq.
  - intros ch c Hne Hc Hin. cbn [set_consumers consumers].
    rewrite lookup_delete_ne by done. unfold group_discard. simpl.
    change (consumers (group_send g (EvUserStatus (id (user me)) (username (user me))
              (py "offline"))
              (set_db (remove_typing_indicator me)
                 (set_db (update_online_status me false) h))) !! ch
            = Some (send offline c)).
    by rewrite (group_send_member _ _ _ ch c).
  - intros ch Hne Hout. cbn [set_consumers consumers].
    rewrite lookup_delete_ne by done. unfold group_discard. simpl.
    change (consumers (group_send g (EvUserStatus (id (user me)) (username (user me))
              (py "offline"))
              (set_db (remove_typing_indicator me)
                 (set_db (update_online_status me false) h))) !! ch
            = consumers h !! ch).
    by rewrite group_send_outsider.
Qed.

(** C1, as the code has it. The consumer keeps no count of a user's
    sessions. Every accepted [connect] returns normally, sets the user's
    stored flag and sends [user_status] "online" to every session of the
    conversation's group, the new one included. Every [disconnect] of a
    session of a signed-in user returns normally, clears the flag and
    sends "offline" to every other session of the group, whatever other
    sessions the user still has; the session that disconnects is sent
    nothing, its consumer has stopped. *)
Theorem C1_every_connect_and_disconnect_announces
    (new : str) (sc : scope) (self : str) (me : ChatConsumer)
    (other : str) (c : ChatConsumer) (code : Z) (h : hub) :
  is_authenticated (scope_user sc) = true ->
  check_participant
    (mkConsumer (url_conversation_id sc) (group_name_of (url_conversation_id sc))
       (scope_user sc) Connecting []) (db h) = true ->
  consumers h !! self = Some me ->
  is_authenticated (user me) = true ->
  consumers h !! other = Some c ->
  other <> new ->
  other <> self ->
  let g := group_name_of (url_conversation_id sc) in
  let online :=
    UserStatusFrame (id (scope_user sc)) (username (scope_user sc)) (py "online") in
  let offline := UserStatusFrame (id (user me)) (username (user me)) (py "offline") in
  let joined := (connect new sc h).1 in
  let left := (disconnect self code h).1 in
  (connect new sc h).2 = None /\
  consumers joined !! new =
    Some (mkConsumer (url_conversation_id sc) g (scope_user sc) Accepted [online]) /\
  (other ∈ members g h -> consumers joined !! other = Some (send online c)) /\
  users (db joined) !! id (scope_user sc) =
    (fun _ => true) <$> users (db h) !! id (scope_user sc) /\
  (disconnect self code h).2 = None /\
  (other ∈ members (conversation_group_name me) h ->
     consumers left !! other = Some (send offline c)) /\
  consumers left !! self = None /\
  users (db left) !! id (user me) = (fun _ => false) <$> users (db h) !! id (user me).
Proof.
  intros Hauth Hpart Hme _ Hc Hne Hne'. cbv zeta.
  destruct (connect_accepted new sc h Hauth Hpart) as (Hret & Hu & _ & Hnew & Hothers).
  destruct (disconnect_effects self me code h Hme)
    as (Hret' & Hu' & _ & _ & Hgone & Hall & _).
  split; [exact Hret|]. split; [exact Hnew|]. split; [|split; [|split; [|split; [|split]]]].
  - intros Hin. by apply Hothers.
  - rewrite Hu. apply lookup_alter_eq.
  - exact Hret'.
  - intros Hin. by apply Hall.
  - exact Hgone.
  - rewrite Hu'. apply lookup_alter_eq.
Qed.

(** ** Read receipts *)

Lemma rows_for_app message user_id rows rows' :
  rows_for message user_id (rows ++ rows') =
  (rows_for message user_id rows + rows_for message user_id rows')%nat.
Proof. unfold rows_for. by rewrite List.filter_app, length_app. Qed.

Lemma rows_for_new message user_id now :
  rows_for message user_id [mkReadStatus message user_id now] = 1%nat.
Proof. unfold rows_for, same_pair. simpl. by rewrite !Z.eqb_refl. Qed.

(** [get_or_create] on a table that respects [unique_together]. *)
Lemma get_or_create_unique message user_id now rows :
  (rows_for message user_id rows <= 1)%nat ->
  (get_or_create message user_id now rows).2 = None /\
  rows_for message user_id (get_or_create message user_id now rows).1 = 1%nat /\
  (rows_for message user_id rows = 1%nat ->
     (get_or_create message user_id now rows).1 = rows).
Proof.
  unfold get_or_create. intros Hle.
  destruct (List.filter (same_pair message user_id) rows) as [|r [|r' l]] eqn:E.
  - simpl. split; [done|]. split; [|unfold rows_for; rewrite E; done].
    rewrite rows_for_app, rows_for_new. unfold rows_for. by rewrite E.
  - simpl. split; [done|]. split; [|done]. unfold rows_for. by rewrite E.
  - unfold rows_for in Hle. rewrite E in Hle. simpl in Hle. lia.
Qed.

Lemma get_message_id message_id d m :
  get_message message_id d = Some m -> msg_id m = message_id.
Proof.
  unfold get_message. intros H. apply List.find_some in H as [_ H]. lia.
Qed.

Lemma mark_message_read_spec me message_id now d m :
  get_message message_id d = Some m ->
  (rows_for message_id (id (user me)) (read_status d) <= 1)%nat ->
  let d' := (mark_message_read me message_id now d).1 in
  (mark_message_read me message_id now d).2 = None /\
  rows_for message_id (id (user me)) (read_status d') = 1%nat /\
  users d' = users d /\ conversations d' = conversations d /\
  participants d' = participants d /\ messages d' = messages d /\
  typing_indicators d' = typing_indicators d /\
  (rows_for message_id (id (user me)) (read_status d) = 1%nat -> d' = d).
Proof.
  intros Hm Hle. unfold mark_message_read. rewrite Hm.
  pose proof (get_message_id _ _ _ Hm) as ->.
  destruct (get_or_create_unique message_id (id (user me)) now (read_status d) Hle)
    as (He & Hone & Hsame).
  destruct (get_or_create _ _ _ _) as [rows e]. simpl in *.
  repeat split; try done.
  intros H1. rewrite (Hsame H1). by destruct d.
Qed.

Lemma mark_message_read_keeps_messages me message_id now d :
  messages (mark_message_read me message_id now d).1 = messages d /\
  participants (mark_message_read me message_id now d).1 = participants d.
Proof.
  unfold mark_message_read. destruct (get_message _ _); [|done].
  by destruct (get_or_create _ _ _ _).
Qed.

Lemma handle_read_receipt_keeps_messages self data now h :
  messages (db (handle_read_receipt self data now h).1) = messages (db h) /\
  participants (db (handle_read_receipt self data now h).1) = participants (db h).
Proof.
  unfold handle_read_receipt.
  destruct (consumers h !! self) as [me|]; [|done].
  destruct (dict_get _ _) as [v|]; [|done].
  destruct (truthy v); [|done].
  destruct (to_pk v) as [e|z]; [done|].
  pose proof (mark_message_read_keeps_messages me z now (db h)) as H.
  by destruct (mark_message_read _ _ _ _).
Qed.

(** C5, as the code has it. The unread count of a participant is computed
    from the messages of the conversation and the participant's
    [last_read_at] alone; a [read_receipt] frame writes neither, so every
    participant's unread count is after the frame what it was before. *)
Theorem C5_read_receipt_leaves_unread_count
    (self : str) (data : dict) (now : Z) (h : hub) (p : ConversationParticipant) :
  let h' := (receive self (Loaded (JDict (((py "type"), JStr (py "read_receipt")) :: data)))
               now h).1 in
  participants (db h') = participants (db h) /\
  get_unread_count p (db h') = get_unread_count p (db h).
Proof.
  cbn zeta. unfold receive.
  change (dict_get (py "type") ((py "type", JStr (py "read_receipt")) :: data))
    with (Some (JStr (py "read_receipt"))).
  rewrite (eq_str_false _ "chat_message"), (eq_str_false _ "typing"), eq_str_true
    by (intros [=]).
  destruct (handle_read_receipt_keeps_messages self
              ((py "type", JStr (py "read_receipt")) :: data) now h) as [Hm Hp].
  split; [done|]. unfold get_unread_count. by rewrite Hm.
Qed.


(** ** Marking a message read twice *)

Lemma goc_step_spec message user_id now pc rows :
  (rows_for message user_id rows <= 1)%nat ->
  pc_ok pc (rows_for message user_id rows) ->
  let k := rows_for message user_id rows in
  let k' := rows_for message user_id (goc_step message user_id now pc rows).2 in
  let pc' := (goc_step message user_id now pc rows).1 in
  (k <= k')%nat /\ (k' <= 1)%nat /\ pc_ok pc' k' /\
  (steps_left pc' <= steps_left pc - 1)%nat.
Proof.
  intros Hle Hok. cbn zeta. unfold goc_step.
  pose proof (rows_for_app message user_id rows [mkReadStatus message user_id now]) as Happ.
  rewrite rows_for_new in Happ. unfold rows_for in *.
  destruct (List.filter (same_pair message user_id) rows) as [|r [|r' l]] eqn:E;
    destruct pc; simpl in *; rewrite ?Happ, ?E; simpl; try lia; try done.
Qed.

(** A step of one call never invalidates what the other call relies on. *)
Lemma pc_ok_mono pc k k' : (k <= k')%nat -> (k' <= 1)%nat -> pc_ok pc k -> pc_ok pc k'.
Proof. destruct pc; simpl; lia. Qed.

Lemma race_run_spec message user_id now1 now2 schedule r :
  let count r := rows_for message user_id (table r) in
  (count r <= 1)%nat ->
  pc_ok (first_pc r) (count r) ->
  pc_ok (second_pc r) (count r) ->
  let r' := race_run message user_id now1 now2 schedule r in
  (count r' <= 1)%nat /\
  pc_ok (first_pc r') (count r') /\
  pc_ok (second_pc r') (count r') /\
  (steps_left (first_pc r') <= steps_left (first_pc r) - turns true schedule)%nat /\
  (steps_left (second_pc r') <= steps_left (second_pc r) - turns false schedule)%nat.
Proof.
  cbn zeta. revert r.
  induction schedule as [|pick schedule IH]; intros r Hle H1 H2.
  { unfold turns. simpl. repeat split; try done; lia. }
  unfold race_run in *. cbn [foldl].
  set (r1 := race_step message user_id now1 now2 pick r).
  assert ((rows_for message user_id (table r1) <= 1)%nat /\
          pc_ok (first_pc r1) (rows_for message user_id (table r1)) /\
          pc_ok (second_pc r1) (rows_for message user_id (table r1)) /\
          (steps_left (first_pc r1)
             <= steps_left (first_pc r) - (if pick then 1 else 0))%nat /\
          (steps_left (second_pc r1)
             <= steps_left (second_pc r) - (if pick then 0 else 1))%nat)
    as (Hle1 & H11 & H21 & Hs1 & Hs2).
  { subst r1. unfold race_step. destruct pick.
    - pose proof (goc_step_spec message user_id now1 (first_pc r) (table r) Hle H1)
        as (Hk & Hk' & Hok & Hst).
      destruct (goc_step _ _ _ _ _) as [pc rows]. simpl in *.
      repeat split; try done; [by eapply pc_ok_mono | lia].
    - pose proof (goc_step_spec message user_id now2 (second_pc r) (table r) Hle H2)
        as (Hk & Hk' & Hok & Hst).
      destruct (goc_step _ _ _ _ _) as [pc rows]. simpl in *.
      repeat split; try done; [by eapply pc_ok_mono | lia]. }
  destruct (IH r1 Hle1 H11 H21) as (Hc & Ha & Hb & Hsa & Hsb).
  repeat split; try done; unfold turns in *; destruct pick; simpl in *; lia.
Qed.

Lemma finished_of_no_steps pc k : pc_ok pc k -> steps_left pc = 0%nat ->
  exists created, pc = Finished created.
Proof. destruct pc; simpl; try done; eauto. Qed.

(** Run on its own, the stepwise call is [get_or_create]. *)
Lemma goc_alone_is_get_or_create message user_id now rows :
  (goc_alone message user_id now rows).2 = (get_or_create message user_id now rows).1 /\
  match (get_or_create message user_id now rows).2 with
  | None => exists created, (goc_alone message user_id now rows).1 = Finished created
  | Some e => (goc_alone message user_id now rows).1 = Failed e
  end.
Proof.
  unfold goc_alone, get_or_create, goc_step.
  destruct (List.filter (same_pair message user_id) rows) as [|r [|r' l]] eqn:E;
    simpl; rewrite ?E; simpl; eauto.
Qed.

(** C6. Marking the same stored message read twice for the same user, on a
    table that has at most one row for the pair: one call after the other,
    neither raises, the second leaves the database as the first left it,
    and the pair has exactly one row; and when the two [get_or_create]
    calls run interleaved, under any schedule that lets both finish, both
    finish without an exception and the pair has exactly one row. *)
Theorem C6_mark_read_twice_leaves_one_row
    (me : ChatConsumer) (message_id now1 now2 : Z) (d : database)
    (m : Message) (schedule : list bool) :
  get_message message_id d = Some m ->
  (rows_for message_id (id (user me)) (read_status d) <= 1)%nat ->
  (3 <= turns true schedule)%nat ->
  (3 <= turns false schedule)%nat ->
  let once := mark_message_read me message_id now1 d in
  let twice := mark_message_read me message_id now2 once.1 in
  let raced :=
    race_run message_id (id (user me)) now1 now2 schedule
      (mkRace AtGet AtGet (read_status d)) in
  (once.2 = None /\ twice.2 = None /\ twice.1 = once.1 /\
   rows_for message_id (id (user me)) (read_status twice.1) = 1%nat) /\
  ((exists created, first_pc raced = Finished created) /\
   (exists created, second_pc raced = Finished created) /\
   rows_for message_id (id (user me)) (table raced) = 1%nat).
Proof.
  intros Hm Hle Ht Hf once twice raced. split.
  - destruct (mark_message_read_spec me message_id now1 d m Hm Hle)
      as (He1 & Hone & _ & _ & _ & Hmsgs & _ & _).
    fold once in He1, Hone, Hmsgs.
    assert (get_message message_id once.1 = Some m) as Hm'
      by (unfold get_message in *; by rewrite Hmsgs).
    destruct (mark_message_read_spec me message_id now2 once.1 m Hm') as
      (He2 & Hone2 & _ & _ & _ & _ & _ & Hsame); [lia|].
    fold twice in He2, Hone2, Hsame.
    repeat split; try done. by apply Hsame.
  - destruct (race_run_spec message_id (id (user me)) now1 now2 schedule
                (mkRace AtGet AtGet (read_status d)))
      as (Hc & H1 & H2 & Hs1 & Hs2); try done.
    fold raced in Hc, H1, H2, Hs1, Hs2. simpl in Hs1, Hs2.
    destruct (finished_of_no_steps _ _ H1) as [c1 Hc1]; [lia|].
    destruct (finished_of_no_steps _ _ H2) as [c2 Hc2]; [lia|].
    repeat split; eauto. rewrite Hc1 in H1. exact H1.
Qed.

(** ** Typing indicators and the clock *)

(** C4. A typing indicator stamped a day and two seconds ago is reported
    active: [is_active] looks at the seconds field of the elapsed time, and
    that field starts again from 0 with every full day. *)
Theorem C4_is_active_again_after_a_day (conversation user_id started : Z) :
  is_active (started + us_per_day + 2 * us_per_second)
            (mkTyping conversation user_id started) = true.
Proof.
  unfold is_active, datetime_sub. cbn [started_at seconds].
  replace (started + us_per_day + 2 * us_per_second - started)
    with (us_per_day + 2 * us_per_second) by lia.
  reflexivity.
Qed.

(** X2. Within the first day after the stamp, [is_active] is the intended
    test: true exactly when less than five seconds have passed. *)
Lemma is_active_within_a_day (now : Z) (self : TypingIndicator) :
  0 <= now - started_at self < us_per_day ->
  is_active now self = true <-> now - started_at self < 5 * us_per_second.
Proof.
  intros Hday. unfold is_active, datetime_sub. cbn [seconds].
  rewrite (Z.mod_small _ _ Hday). unfold us_per_day, us_per_second in *.
  rewrite Z.ltb_lt.
  pose proof (Z.div_mod (now - started_at self) 1000000 ltac:(lia)) as Hdm.
  pose proof (Z.mod_pos_bound (now - started_at self) 1000000 ltac:(lia)) as Hb.
  lia.
Qed.

(** ** Refused connections *)

(** X1. For a conversation id a 64-bit column holds, [connect] on its own
    refuses a signed-in user who is not a participant by closing the
    socket, without touching the database, the groups or any other
    session. *)
Lemma connect_refused self sc h :
  in_db_range (url_conversation_id sc) ->
  is_authenticated (scope_user sc) = true ->
  check_participant
    (mkConsumer (url_conversation_id sc) (group_name_of (url_conversation_id sc))
       (scope_user sc) Connecting []) (db h) = false ->
  connect self sc h =
  returns (set_consumers
             <[self := mkConsumer (url_conversation_id sc)
                         (group_name_of (url_conversation_id sc))
                         (scope_user sc) Closed []]> h).
Proof.
  intros _ Hauth Hpart. unfold connect. cbn [user db set_consumers].
  rewrite Hauth, Hpart. cbn [negb]. unfold returns, close, on_self. f_equal.
  unfold set_consumers. cbn [db groups consumers]. f_equal.
  by rewrite alter_insert_eq.
Qed.

(** C8. Carol, signed in and connected to conversation 2, opens a socket to
    conversation 1, of which she is no participant, while bob is joined to
    it. [connect] refuses her and changes nothing. The socket is then
    closed, and [disconnect], which the transport calls for every closed
    socket, runs its teardown for an instance that never joined: carol is
    stored as offline although her session in conversation 2 is live, and
    bob is sent a [user_status] frame about her. *)
Theorem C8_refused_connection_still_runs_teardown :
  let refused := connect (py "x") (mkScope 1 carol) hub_bob_and_carol in
  let closed := disconnect (py "x") 1006 refused.1 in
  check_participant (session_of (py "x") refused.1) (db hub_bob_and_carol) = false /\
  refused.2 = None /\
  ws (session_of (py "x") refused.1) = Closed /\
  db refused.1 = db hub_bob_and_carol /\
  groups refused.1 = groups hub_bob_and_carol /\
  frames_of (py "b") refused.1 = frames_of (py "b") hub_bob_and_carol /\
  closed.2 = None /\
  users (db hub_bob_and_carol) !! 3 = Some true /\
  users (db closed.1) !! 3 = Some false /\
  joined_sessions 3 closed.1 = 1%nat /\
  frames_of (py "b") closed.1 =
    frames_of (py "b") hub_bob_and_carol
      ++ [UserStatusFrame 3 (py "carol") (py "offline")].
Proof. each_by_computation. Qed.

(** ** The properties at work in the small world *)

(** C1 fails as stated. Alice is joined once ([hub_pair]); her second
    device joins (one session to two) and bob is sent "online" again; the
    second device leaves (two sessions to one) and bob is sent "offline",
    and alice is stored as offline, while her first session is still
    joined. *)
Lemma C1_counterexample_second_device :
  joined_sessions 1 hub_pair = 1%nat /\
  joined_sessions 1 hub_two_devices = 2%nat /\
  frames_of (py "b") hub_two_devices =
    frames_of (py "b") hub_pair ++ [UserStatusFrame 1 (py "alice") (py "online")] /\
  joined_sessions 1 (disconnect (py "a2") 1000 hub_two_devices).1 = 1%nat /\
  frames_of (py "b") (disconnect (py "a2") 1000 hub_two_devices).1 =
    frames_of (py "b") hub_two_devices
      ++ [UserStatusFrame 1 (py "alice") (py "offline")] /\
  users (db (disconnect (py "a2") 1000 hub_two_devices).1) !! 1 = Some false.
Proof. each_by_computation. Qed.

Lemma C1_witness_pair :
  frames_of (py "a2") (connect (py "a2") (mkScope 1 alice) hub_pair).1 =
    [UserStatusFrame 1 (py "alice") (py "online")] /\
  consumers (connect (py "a2") (mkScope 1 alice) hub_pair).1 !! py "b" =
    Some (send (UserStatusFrame 1 (py "alice") (py "online"))
            (session_of (py "b") hub_pair)) /\
  consumers (disconnect (py "a") 1000 hub_pair).1 !! py "b" =
    Some (send (UserStatusFrame 1 (py "alice") (py "offline"))
            (session_of (py "b") hub_pair)) /\
  consumers (disconnect (py "a") 1000 hub_pair).1 !! py "a" = None.
Proof.
  destruct (C1_every_connect_and_disconnect_announces
              (py "a2") (mkScope 1 alice) (py "a") (session_of (py "a") hub_pair)
              (py "b") (session_of (py "b") hub_pair) 1000 hub_pair)
    as (_ & Hnew & Hon & _ & _ & Hoff & Hgone & _); [by_computation .. |].
  split; [unfold frames_of; rewrite Hnew; reflexivity|].
  split; [apply Hon; is_member|]. split; [apply Hoff; is_member | exact Hgone].
Defined.

(** C2 fails as stated. Conversation 1 is gone; alice's "hi" cannot be
    saved, and her socket carries after the frame exactly what it carried
    before: no error frame reaches her. *)
Lemma C2_counterexample_no_error_frame :
  (save_message (session_of (py "a") hub_orphaned) (py "hi") 10 (db hub_orphaned)).2
    = None /\
  (receive (py "a") (Loaded (JDict chat_hi)) 10 hub_orphaned).2 = None /\
  frames_of (py "a") (receive (py "a") (Loaded (JDict chat_hi)) 10 hub_orphaned).1 =
    frames_of (py "a") hub_orphaned /\
  frames_of (py "a") hub_orphaned =
    [UserStatusFrame 1 (py "alice") (py "online");
     UserStatusFrame 2 (py "bob") (py "online")].
Proof. each_by_computation. Qed.

Lemma C2_witness_orphaned :
  receive (py "a") (Loaded (JDict chat_hi)) 10 hub_orphaned = returns hub_orphaned.
Proof.
  apply (C2_failed_save_sends_nothing (py "a") (session_of (py "a") hub_orphaned)
           chat_hi (py "hi") 10 hub_orphaned); by_computation.
Defined.



(** C5 fails as stated. Alice's "hi" is bob's one unread message; bob's
    read receipt for it is recorded, and his unread count is still 1. *)
Lemma C5_counterexample_still_unread :
  messages (db hub_hi) =
    [mkMessage 1 1 1 (py "text") (py "hi") 10 None false] /\
  get_unread_count (mkParticipant 1 2 false None) (db hub_hi) = 1%nat /\
  (receive (py "b") (Loaded (JDict (read_receipt_for 1))) 20 hub_hi).2 = None /\
  read_status (db (receive (py "b") (Loaded (JDict (read_receipt_for 1))) 20 hub_hi).1) =
    [mkReadStatus 1 2 20] /\
  mkParticipant 1 2 false None
    ∈ participants (db (receive (py "b") (Loaded (JDict (read_receipt_for 1))) 20 hub_hi).1) /\
  get_unread_count (mkParticipant 1 2 false None)
    (db (receive (py "b") (Loaded (JDict (read_receipt_for 1))) 20 hub_hi).1) = 1%nat.
Proof.
  each_by_computation.
Qed.

Lemma C7_witness_three_spaces :
  receive (py "a")
    (Loaded (JDict [(py "type", JStr (py "chat_message"));
                    (py "content", JStr (py "   "))])) 10 hub_pair
  = returns hub_pair.
Proof.
  apply (C7_blank_chat_message_dropped_silently (py "a") _ (py "   ") 10 hub_pair);
    [ exists (session_of (py "a") hub_pair) | | | ]; by_computation.
Defined.

Lemma unknown_frame_witness :
  exists h',
    receive (py "a") (Loaded (JDict [(py "type", JStr (py "ping"))])) 10 hub_pair
      = (h', None) /\
    frames_of (py "a") h' =
      frames_of (py "a") hub_pair ++ [ErrorFrame (py "Unknown message type")] /\
    groups h' = groups hub_pair.
Proof.
  destruct (X24_unknown_frame_is_answered_with_an_error_frame
              (py "a") (session_of (py "a") hub_pair)
              (Loaded (JDict [(py "type", JStr (py "ping"))]))
              (py "Unknown message type") 10 hub_pair)
    as (h' & Hrecv & Hself & _ & _ & Hgroups & _).
  - by_computation.
  - is_member.
  - constructor; by_computation.
  - exists h'. split; [exact Hrecv|]. split; [|exact Hgroups].
    unfold frames_of. rewrite Hself. reflexivity.
Defined.


Lemma C6_witness_bob_reads_hi :
  rows_for 1 2
    (read_status
       (mark_message_read (session_of (py "b") hub_hi) 1 21
          (mark_message_read (session_of (py "b") hub_hi) 1 20 (db hub_hi)).1).1)
    = 1%nat /\
  rows_for 1 2
    (table (race_run 1 2 20 21 [true; false; false; true; true; false]
              (mkRace AtGet AtGet (read_status (db hub_hi))))) = 1%nat.
Proof.
  destruct (C6_mark_read_twice_leaves_one_row
              (session_of (py "b") hub_hi) 1 20 21 (db hub_hi)
              (mkMessage 1 1 1 (py "text") (py "hi") 10 None false)
              [true; false; false; true; true; false])
    as ((_ & _ & _ & Hseq) & (_ & _ & Hrace)); [by_computation .. |].
  split; [exact Hseq | exact Hrace].
Defined.

Lemma connect_refused_witness_carol :
  connect (py "x") (mkScope 1 carol) hub_bob_and_carol =
  returns (set_consumers
             <[py "x" := mkConsumer 1 (group_name_of 1) carol Closed []]>
             hub_bob_and_carol).
Proof.
  apply (connect_refused (py "x") (mkScope 1 carol) hub_bob_and_carol);
    [unfold in_db_range; cbn; lia | by_computation | by_computation].
Defined.

Lemma is_active_within_a_day_witness :
  is_active 4999999 (mkTyping 1 1 0) = true <-> 4999999 - 0 < 5 * us_per_second.
Proof.
  apply (is_active_within_a_day 4999999 (mkTyping 1 1 0)).
  split; by_computation.
Defined.

(** * Further properties of the hub and of the views around it *)

(** ** Events stay inside the conversation *)

Lemma py_inj (s t : string) : py s = py t -> s = t.
Proof.
  unfold py. intros H.
  assert (Inj (=) (=) Ascii.N_of_ascii) as Hinj.
  { intros a b Hab. rewrite <- (Ascii.ascii_N_embedding a), <- (Ascii.ascii_N_embedding b).
    by rewrite Hab. }
  apply (inj (fmap Ascii.N_of_ascii)) in H.
  rewrite <- (String.string_of_list_ascii_of_string s),
          <- (String.string_of_list_ascii_of_string t).
  by rewrite H.
Qed.

(** X4. Two conversations share a group name only if they are the same
    conversation. *)
Theorem X4_group_name_of_conversation (c1 c2 : Z) :
  group_name_of c1 = group_name_of c2 <-> c1 = c2.
Proof.
  split; [|by intros ->]. unfold group_name_of. intros H.
  apply app_inv_head in H. apply py_inj in H. by apply (inj pretty) in H.
Qed.

Lemma handle_read_receipt_frame self data now h :
  consumers (handle_read_receipt self data now h).1 = consumers h /\
  groups (handle_read_receipt self data now h).1 = groups h /\
  users (db (handle_read_receipt self data now h).1) = users (db h) /\
  conversations (db (handle_read_receipt self data now h).1) = conversations (db h) /\
  typing_indicators (db (handle_read_receipt self data now h).1)
    = typing_indicators (db h).
Proof.
  unfold handle_read_receipt.
  destruct (consumers h !! self) as [me|]; [|done].
  destruct (dict_get _ _) as [v|]; [|done].
  destruct (truthy v); [|done].
  destruct (to_pk v) as [e|z]; [done|].
  unfold mark_message_read. destruct (get_message _ _); [|done].
  by destruct (get_or_create _ _ _ _).
Qed.

Lemma handle_typing_outsider a ca b data now h :
  consumers h !! a = Some ca ->
  b ∉ members (conversation_group_name ca) h ->
  consumers (handle_typing a data now h).1 !! b = consumers h !! b.
Proof.
  intros Ha Hout. unfold handle_typing. rewrite Ha.
  destruct (truthy _).
  - destruct (add_typing_indicator ca now (db h)) as [d [e|]]; [done|].
    cbn [fst returns]. by rewrite group_send_outsider.
  - cbn [fst returns]. by rewrite group_send_outsider.
Qed.

Lemma handle_chat_message_outsider a ca b data now h :
  consumers h !! a = Some ca ->
  b ∉ members (conversation_group_name ca) h ->
  consumers (handle_chat_message a data now h).1 !! b = consumers h !! b.
Proof.
  intros Ha Hout. unfold handle_chat_message. rewrite Ha.
  destruct (dict_get_default _ _ _); try done.
  case_bool_decide; [done|].
  destruct (save_message ca (strip s) now (db h)) as [d [m|]]; [|done].
  cbn [fst returns]. by rewrite group_send_outsider.
Qed.

(** X5. Whatever frame a session sends, no session outside its
    conversation's group is sent anything: its instance is after the frame
    what it was before. *)
Theorem X5_frames_stay_inside_the_group
    (a b : str) (ca : ChatConsumer) (text : text_data) (now : Z) (h : hub) :
  consumers h !! a = Some ca ->
  b <> a ->
  b ∉ members (conversation_group_name ca) h ->
  consumers (receive a text now h).1 !! b = consumers h !! b.
Proof.
  intros Ha Hne Hout. destruct text as [| |[]]; cbn [receive]; try done.
  - cbn [fst returns]. by apply on_self_lookup_ne.
  - repeat case_match.
    + by eapply handle_chat_message_outsider.
    + by eapply handle_typing_outsider.
    + by destruct (handle_read_receipt_frame a d now h) as [-> _].
    + cbn [fst returns]. by apply on_self_lookup_ne.
Qed.

(** ** Typing indicators *)

(** X6. A typing frame with a true [is_typing] leaves exactly one
    indicator for the session's (conversation, user), stamped now; a frame
    with a false or missing [is_typing] leaves none. No other indicator and
    no other table is touched. *)
Theorem X6_typing_frame_sets_or_clears_the_indicator
    (self : str) (me : ChatConsumer) (data : dict) (now : Z) (h : hub) :
  consumers h !! self = Some me ->
  is_Some (conversations (db h) !! conversation_id me) ->
  let is_typing := dict_get_default (py "is_typing") (JBool false) data in
  let d' := db (handle_typing self data now h).1 in
  typing_indicators d' !! (conversation_id me, id (user me)) =
    (if truthy is_typing then Some now else None) /\
  (forall k, k <> (conversation_id me, id (user me)) ->
     typing_indicators d' !! k = typing_indicators (db h) !! k) /\
  users d' = users (db h) /\ conversations d' = conversations (db h) /\
  participants d' = participants (db h) /\ messages d' = messages (db h) /\
  read_status d' = read_status (db h).
Proof.
  intros Hme [t Ht]. cbn zeta. unfold handle_typing. rewrite Hme.
  unfold add_typing_indicator. rewrite Ht.
  destruct (truthy _); cbn [fst returns]; rewrite group_send_db; simpl;
    (split; [|split; [intros k Hk|done]]).
  - apply lookup_insert_eq.
  - by apply lookup_insert_ne.
  - apply lookup_delete_eq.
  - by apply lookup_delete_ne.
Qed.

(** X7. After [disconnect] the session is out of its group, the typing
    indicator of its (conversation, user) is gone, the other groups are as
    they were, and an event sent to the group afterwards does not reach
    the session. *)
Theorem X7_disconnect_leaves_the_group_and_clears_typing
    (self : str) (me : ChatConsumer) (code : Z) (ev : event) (h : hub) :
  consumers h !! self = Some me ->
  let g := conversation_group_name me in
  let h' := (disconnect self code h).1 in
  (self ∉ members g h') /\
  typing_indicators (db h') !! (conversation_id me, id (user me)) = None /\
  (forall g', g' <> g -> members g' h' = members g' h) /\
  consumers (group_send g ev h') !! self = consumers h' !! self.
Proof.
  intros Hme g h'.
  pose proof (disconnect_effects self me code h Hme) as Heff. cbv zeta in Heff.
  destruct Heff as (_ & _ & Hty & Hg & _).
  fold g in Hg. fold h' in Hty, Hg.
  assert (self ∉ members g h') as Hout.
  { rewrite Hg. intros [_ Hn]%elem_of_difference. apply Hn. by apply elem_of_singleton. }
  split; [done|]. split; [rewrite Hty; apply lookup_delete_eq|]. split.
  - intros g' Hne. subst h'. unfold disconnect. rewrite Hme. fold g.
    unfold members, group_discard. simpl. by rewrite lookup_total_insert_ne.
  - by apply group_send_outsider.
Qed.

(** ** What a chat message leaves in the tables *)







(** ** Read receipts and the read-status table *)

Lemma rows_for_other_new message user_id message' user_id' now :
  (message', user_id') <> (message, user_id) ->
  rows_for message' user_id' [mkReadStatus message user_id now] = 0%nat.
Proof.
  intros Hne. unfold rows_for, same_pair. simpl.
  destruct (message =? message') eqn:E1; [|done].
  destruct (user_id =? user_id') eqn:E2; [|done].
  apply Z.eqb_eq in E1, E2. congruence.
Qed.

Lemma get_or_create_rows message user_id now rows :
  (get_or_create message user_id now rows).1 = rows \/
  (rows_for message user_id rows = 0%nat /\
   (get_or_create message user_id now rows).1 =
     rows ++ [mkReadStatus message user_id now]).
Proof.
  unfold get_or_create, rows_for.
  destruct (List.filter _ rows) as [|r [|r' l]]; simpl; auto.
Qed.

Lemma get_or_create_keeps_unique message user_id now rows :
  unique_together rows ->
  (get_or_create message user_id now rows).2 = None /\
  unique_together (get_or_create message user_id now rows).1.
Proof.
  intros Hu. destruct (get_or_create_unique message user_id now rows (Hu _ _))
    as (He & Hone & _).
  split; [done|]. intros message' user_id'.
  destruct (get_or_create_rows message user_id now rows) as [-> | [H0 ->]]; [done|].
  destruct (decide ((message', user_id') = (message, user_id))) as [[= -> ->]|Hne].
  - rewrite rows_for_app, rows_for_new, H0. done.
  - rewrite rows_for_app, (rows_for_other_new _ _ _ _ _ Hne). specialize (Hu message' user_id'). lia.
Qed.

Lemma mark_message_read_keeps_unique me message_id now d :
  unique_together (read_status d) ->
  (mark_message_read me message_id now d).2 = None /\
  unique_together (read_status (mark_message_read me message_id now d).1).
Proof.
  intros Hu. unfold mark_message_read. destruct (get_message _ _) as [m|]; [|done].
  pose proof (get_or_create_keeps_unique (msg_id m) (id (user me)) now _ Hu) as H.
  by destruct (get_or_create _ _ _ _).
Qed.

(** X10. The read-status table has at most one row per (message, user)
    after a read-receipt frame if it had before, whatever the frame
    carries; and on such a table the frame never fails with more than one
    row found. *)
Theorem X10_read_receipt_keeps_one_row_per_pair
    (self : str) (data : dict) (message_id now : Z) (h : hub) :
  unique_together (read_status (db h)) ->
  dict_get (py "message_id") data = Some (JInt message_id) ->
  (handle_read_receipt self data now h).2 <> Some MultipleObjectsReturned /\
  unique_together (read_status (db (handle_read_receipt self data now h).1)).
Proof.
  intros Hu Hid. unfold handle_read_receipt.
  destruct (consumers h !! self) as [me|]; [|done].
  rewrite Hid. destruct (truthy _); [|done]. cbn [to_pk].
  pose proof (mark_message_read_keeps_unique me message_id now (db h) Hu) as [He Hu'].
  destruct (mark_message_read _ _ _ _) as [d e]. simpl in *. by subst e.
Qed.

(** X11. A read-receipt frame is silent and writes one table only: no
    session is sent a frame, no group changes, and of the tables only the
    read statuses can change, by one row for a stored message and the
    session's user, stamped now. *)
Theorem X11_read_receipt_is_silent
    (self : str) (data : dict) (now : Z) (h : hub) :
  let h' := (handle_read_receipt self data now h).1 in
  consumers h' = consumers h /\ groups h' = groups h /\
  users (db h') = users (db h) /\
  conversations (db h') = conversations (db h) /\
  participants (db h') = participants (db h) /\
  messages (db h') = messages (db h) /\
  typing_indicators (db h') = typing_indicators (db h) /\
  (read_status (db h') = read_status (db h) \/
   exists me m,
     consumers h !! self = Some me /\ m ∈ messages (db h) /\
     read_status (db h') =
       read_status (db h) ++ [mkReadStatus (msg_id m) (id (user me)) now]).
Proof.
  cbn zeta.
  destruct (handle_read_receipt_frame self data now h) as (Hc & Hg & Hu & Hcv & Hty).
  destruct (handle_read_receipt_keeps_messages self data now h) as [Hm Hp].
  repeat split; try done.
  unfold handle_read_receipt.
  destruct (consumers h !! self) as [me|] eqn:Hme; [|by left].
  destruct (dict_get _ _) as [v|]; [|by left].
  destruct (truthy v); [|by left].
  destruct (to_pk v) as [e|z]; [by left|].
  unfold mark_message_read, get_message.
  destruct (List.find _ _) as [m|] eqn:Hfind; [|by left].
  destruct (get_or_create_rows (msg_id m) (id (user me)) now (read_status (db h)))
    as [Hsame | [_ Hnew]];
    destruct (get_or_create _ _ _ _) as [rows e]; simpl in *; subst rows;
    [by left|].
  right. exists me, m. split; [done|]. split; [|done].
  apply List.find_some in Hfind as [Hin _]. by apply list_elem_of_In.
Qed.

Lemma existsb_same_pair message user_id rows :
  existsb (same_pair message user_id) rows = true <->
  (1 <= rows_for message user_id rows)%nat.
Proof.
  unfold rows_for. induction rows as [|r rows IH]; simpl; [split; [done|lia]|].
  destruct (same_pair message user_id r); simpl; [split; [lia|done]|done].
Qed.

Lemma get_or_create_present message user_id now rows :
  (1 <= rows_for message user_id (get_or_create message user_id now rows).1)%nat.
Proof.
  destruct (get_or_create_rows message user_id now rows) as [Hsame | [_ ->]].
  - revert Hsame. unfold get_or_create, rows_for.
    destruct (List.filter _ rows) as [|r [|r' l]] eqn:E; simpl; intros Hsame;
      rewrite ?E; simpl; try lia.
    apply (f_equal length) in Hsame. rewrite length_app in Hsame. simpl in Hsame. lia.
  - rewrite rows_for_app, rows_for_new. lia.
Qed.

Lemma get_or_create_other message user_id message' user_id' now rows :
  (message', user_id') <> (message, user_id) ->
  rows_for message' user_id' (get_or_create message user_id now rows).1 =
  rows_for message' user_id' rows.
Proof.
  intros Hne.
  destruct (get_or_create_rows message user_id now rows) as [-> | [_ ->]]; [done|].
  rewrite rows_for_app, (rows_for_other_new _ _ _ _ _ Hne). lia.
Qed.

(** X12. Once a session has sent a read receipt for a stored message, the
    message serializes as read for that session's user; for every other
    user it serializes as it did before, and without a request it
    serializes as unread. *)
Theorem X12_read_receipt_makes_is_read_true
    (self : str) (me : ChatConsumer) (data : dict) (message_id now : Z)
    (m : Message) (h : hub) :
  consumers h !! self = Some me ->
  is_authenticated (user me) = true ->
  dict_get (py "message_id") data = Some (JInt message_id) ->
  message_id <> 0 ->
  get_message message_id (db h) = Some m ->
  let d' := db (handle_read_receipt self data now h).1 in
  get_is_read (Some (user me)) m d' = true /\
  (forall u, id u <> id (user me) ->
     get_is_read (Some u) m d' = get_is_read (Some u) m (db h)) /\
  get_is_read None m d' = false.
Proof.
  intros Hme Hauth Hid Hnz Hm. cbn zeta. unfold handle_read_receipt.
  rewrite Hme, Hid. cbn [truthy]. rewrite (proj2 (Z.eqb_neq _ _) Hnz). cbn [negb to_pk].
  unfold mark_message_read. rewrite Hm.
  pose proof (get_or_create_present (msg_id m) (id (user me)) now (read_status (db h)))
    as Hpresent.
  pose proof (fun u => get_or_create_other (msg_id m) (id (user me)) (msg_id m) u now
                         (read_status (db h))) as Hother.
  destruct (get_or_create _ _ _ _) as [rows e]. simpl in *.
  split; [|split; [|done]].
  - rewrite Hauth. by apply existsb_same_pair.
  - intros u Hu. destruct (is_authenticated u); [|done].
    apply Bool.eq_iff_eq_true. rewrite !existsb_same_pair, Hother; [done|].
    congruence.
Qed.

(** ** Who gets connected *)

(** X13. For a conversation id a 64-bit column holds, [connect] returns
    normally. It accepts the socket exactly when the user is signed in and
    a participant of the conversation, and then the session is a member of
    the conversation's group; otherwise the socket is closed, nothing is
    sent on it, and the groups and the database are as before. *)
Theorem X13_connect_accepts_exactly_the_participants
    (self : str) (sc : scope) (h : hub) :
  in_db_range (url_conversation_id sc) ->
  let me :=
    mkConsumer (url_conversation_id sc) (group_name_of (url_conversation_id sc))
               (scope_user sc) Connecting [] in
  let h' := (connect self sc h).1 in
  (connect self sc h).2 = None /\
  if is_authenticated (scope_user sc) && check_participant me (db h)
  then ws (session_of self h') = Accepted /\
       self ∈ members (group_name_of (url_conversation_id sc)) h'
  else ws (session_of self h') = Closed /\
       groups h' = groups h /\ db h' = db h /\ sent (session_of self h') = [].
Proof.
  intros _. cbn zeta. unfold connect. cbn [user db set_consumers].
  destruct (is_authenticated (scope_user sc)); cbn [negb andb].
  2: { split; [done|]. unfold session_of, close. cbn [fst returns].
       rewrite on_self_lookup. cbn. by rewrite lookup_insert_eq. }
  destruct (check_participant _ (db h)); cbn [negb].
  2: { split; [done|]. unfold session_of, close. cbn [fst returns].
       rewrite on_self_lookup. cbn. by rewrite lookup_insert_eq. }
  split; [done|]. cbn [fst returns conversation_group_name]. split.
  - unfold session_of. rewrite group_send_lookup.
    unfold members, accept, on_self, group_add. cbn.
    rewrite lookup_alter_eq, lookup_insert_eq, lookup_total_insert_eq. cbn.
    rewrite bool_decide_eq_true_2; [done|].
    apply elem_of_union_l. by apply elem_of_singleton.
  - unfold members, group_send, accept, on_self, group_add. cbn.
    rewrite lookup_total_insert_eq.
    apply elem_of_union_l. by apply elem_of_singleton.
Qed.

(** ** The bulk mark-read view *)

Lemma mark_each_spec (ms : list Message) (user_id now : Z)
    (rows : list MessageReadStatus) :
  unique_together rows ->
  (mark_each ms user_id now rows).2 = None /\
  unique_together (mark_each ms user_id now rows).1 /\
  (forall message u,
     (rows_for message u rows
      <= rows_for message u (mark_each ms user_id now rows).1)%nat) /\
  (forall m, m ∈ ms ->
     (1 <= rows_for (msg_id m) user_id (mark_each ms user_id now rows).1)%nat) /\
  (forall message u, u <> user_id ->
     rows_for message u (mark_each ms user_id now rows).1 = rows_for message u rows).
Proof.
  revert rows. induction ms as [|m ms IH]; intros rows Hu.
  { simpl. repeat split; try done. intros m Hin. by apply elem_of_nil in Hin. }
  cbn [mark_each].
  destruct (get_or_create_keeps_unique (msg_id m) user_id now rows Hu) as [He Hu1].
  pose proof (get_or_create_present (msg_id m) user_id now rows) as Hpresent.
  pose proof (fun m' u => get_or_create_other (msg_id m) user_id m' u now rows) as Hother.
  pose proof (get_or_create_rows (msg_id m) user_id now rows) as Hrows.
  destruct (get_or_create (msg_id m) user_id now rows) as [rows1 e].
  simpl in *. subst e.
  destruct (IH rows1 Hu1) as (He2 & Hu2 & Hmono & Hall & Hrest).
  split; [done|]. split; [done|]. split; [|split].
  - intros message u. etrans; [|apply Hmono].
    destruct Hrows as [-> | [_ ->]]; [done|]. rewrite rows_for_app. lia.
  - intros m' [-> | Hin]%elem_of_cons; [|by apply Hall].
    etrans; [apply Hpresent | apply Hmono].
  - intros message u Hne. rewrite Hrest by done. apply Hother. congruence.
Qed.

Lemma touch_last_read_keys conversation user_id now p :
  cp_conversation (touch_last_read conversation user_id now p) = cp_conversation p /\
  cp_user (touch_last_read conversation user_id now p) = cp_user p.
Proof. unfold touch_last_read. by destruct (is_row _ _ p). Qed.

Lemma unread_messages_nil conversation user_id d :
  unread_messages conversation user_id d = [] <->
  forall m, m ∈ messages d -> msg_conversation m = conversation ->
            msg_sender m <> user_id ->
            get_is_read (Some (mkUser user_id [] true)) m d = true.
Proof.
  unfold unread_messages, get_is_read. cbn [is_authenticated id]. split.
  - intros Hnil m Hin Hc Hs.
    destruct (existsb _ _) eqn:E; [done|]. exfalso.
    assert (m ∈ @nil Message) as Hbad; [|by apply elem_of_nil in Hbad].
    rewrite <- Hnil. apply list_elem_of_In, List.filter_In. split; [|by rewrite E].
    apply List.filter_In. split.
    + apply List.filter_In. split; [by apply list_elem_of_In|].
      unfold in_conversation. lia.
    + unfold not_sent_by. apply negb_true_iff. lia.
  - intros Hall. destruct (List.filter _ _) as [|m l] eqn:E; [done|]. exfalso.
    assert (In m (m :: l)) as Hin by (by left). rewrite <- E in Hin.
    apply List.filter_In in Hin as [Hin Hnot].
    apply List.filter_In in Hin as [Hin Hs].
    apply List.filter_In in Hin as [Hin Hc].
    unfold in_conversation, not_sent_by in *.
    rewrite Hall in Hnot; [done|by apply list_elem_of_In|lia|].
    apply negb_true_iff in Hs. lia.
Qed.

(** X14. When the bulk mark-read view answers 200 for a participant, on a
    read-status table with at most one row per pair: every message of the
    conversation that the user did not send serializes as read for the
    user; the table still has at most one row per pair; the rows of other
    users and the messages are untouched. *)
Theorem X14_mark_read_post_marks_every_message
    (request_user : User) (conversation now : Z) (d : database) :
  unique_together (read_status d) ->
  get_conversation_for conversation (id request_user) d = Got conversation ->
  let d' := (mark_read_post request_user conversation now d).1 in
  (mark_read_post request_user conversation now d).2 =
    Responds (HTTP_200_OK (py "Messages marked as read")) /\
  unread_messages conversation (id request_user) d' = [] /\
  unique_together (read_status d') /\
  messages d' = messages d /\
  (forall message u, u <> id request_user ->
     rows_for message u (read_status d') = rows_for message u (read_status d)).
Proof.
  intros Hu Hgot. cbn zeta. unfold mark_read_post. rewrite Hgot.
  set (d1 := set_participants _ d).
  assert (read_status d1 = read_status d) as Hrs by done.
  assert (unique_together (read_status d1)) as Hu1 by done.
  destruct (mark_each_spec (unread_messages conversation (id request_user) d1)
              (id request_user) now (read_status d1) Hu1)
    as (He & Hu2 & Hmono & Hall & Hrest).
  destruct (mark_each _ _ _ _) as [rows e]. simpl in *. subst e.
  split; [done|]. split; [|done].
  apply unread_messages_nil. intros m Hin Hc Hs.
  unfold get_is_read. cbn [is_authenticated id read_status set_read_status].
  apply existsb_same_pair.
  destruct (existsb (same_pair (msg_id m) (id request_user)) (read_status d1)) eqn:E.
  - apply existsb_same_pair in E. etrans; [exact E | apply Hmono].
  - apply Hall. apply list_elem_of_In. unfold unread_messages.
    apply List.filter_In. split; [|by rewrite E].
    apply List.filter_In. split.
    + apply List.filter_In. split; [by apply list_elem_of_In|].
      unfold in_conversation. lia.
    + unfold not_sent_by. apply negb_true_iff. lia.
Qed.

(** X15. After the bulk mark-read view has run for a participant, at a
    time no message of the conversation is later than, the unread count
    of the user's participant row is 0. *)
Theorem X15_mark_read_post_zeroes_the_unread_count
    (request_user : User) (conversation now : Z) (d : database)
    (p : ConversationParticipant) :
  get_conversation_for conversation (id request_user) d = Got conversation ->
  (forall m, m ∈ messages d -> msg_conversation m = conversation ->
             created_at m <= now) ->
  let d' := (mark_read_post request_user conversation now d).1 in
  p ∈ participants d' ->
  is_row conversation (id request_user) p = true ->
  get_unread_count p d' = 0%nat.
Proof.
  intros Hgot Hpast. cbn zeta. unfold mark_read_post. rewrite Hgot.
  set (d1 := set_participants _ d).
  assert (forall rows,
            p ∈ participants (set_read_status (fun _ => rows) d1) ->
            is_row conversation (id request_user) p = true ->
            get_unread_count p (set_read_status (fun _ => rows) d1) = 0%nat)
    as Hgoal; [|by destruct (mark_each _ _ _ _) as [rows [e|]]; apply Hgoal].
  intros rows Hin Hrow.
  change (participants (set_read_status (fun _ => rows) d1))
    with (map (touch_last_read conversation (id request_user) now) (participants d))
    in Hin.
  apply list_elem_of_fmap in Hin as (p0 & -> & Hin0).
  destruct (touch_last_read_keys conversation (id request_user) now p0) as [Hkc Hku].
  unfold is_row in Hrow. rewrite Hkc, Hku in Hrow.
  unfold get_unread_count.
  change (messages (set_read_status (fun _ => rows) d1)) with (messages d).
  rewrite Hkc.
  unfold touch_last_read at 1. unfold is_row. rewrite Hrow. cbn [last_read_at].
  apply andb_prop in Hrow as [Hc _].
  assert (List.filter (fun m => now <? created_at m)
            (List.filter (in_conversation (cp_conversation p0)) (messages d)) = [])
    as ->; [|done].
  destruct (List.filter _ _) as [|m l] eqn:E; [done|]. exfalso.
  assert (In m (m :: l)) as Hm by (by left). rewrite <- E in Hm.
  apply List.filter_In in Hm as [Hm Hlate].
  apply List.filter_In in Hm as [Hm Hconv].
  unfold in_conversation in Hconv.
  specialize (Hpast m ltac:(by apply list_elem_of_In) ltac:(lia)). lia.
Qed.

(** ** Editing and deleting a message *)

Lemma find_map_stable {A} (P : A -> bool) (f : A -> A) (l : list A) :
  (forall x, P (f x) = P x) ->
  List.find P (map f l) = f <$> List.find P l.
Proof.
  intros HP. induction l as [|x l IH]; simpl; [done|].
  rewrite HP. by destruct (P x).
Qed.

(** X16. The update view never changes a stored content. For the sender
    and a non-empty new content it answers 200 with the new content and
    the instance marked edited now, and what it writes to the message's
    row is [is_edited] and [edited_at] only: the row read back has the
    old content. Every other row and table is untouched. *)
Theorem X16_put_marks_edited_but_keeps_the_stored_content
    (request_user : User) (message_id : Z) (data : dict) (content : json)
    (old : Message) (now : Z) (d : database) :
  get_own_message message_id (id request_user) d = Some old ->
  dict_get (py "content") data = Some content ->
  truthy content = true ->
  let out := message_update_put request_user message_id data now d in
  out.2 = Responds (HTTP_200_OK_data (py "Message updated successfully") content
                      (edited now old)
                      (get_is_read (Some request_user) (edited now old) out.1)) /\
  get_own_message message_id (id request_user) out.1 = Some (edited now old) /\
  msg_content (edited now old) = msg_content old /\
  msg_content <$> messages out.1 = msg_content <$> messages d /\
  (forall m, m ∈ messages d -> msg_id m <> message_id -> m ∈ messages out.1) /\
  read_status out.1 = read_status d /\ participants out.1 = participants d /\
  conversations out.1 = conversations d /\
  users out.1 = users d /\ typing_indicators out.1 = typing_indicators d.
Proof.
  intros Hown Hc Ht. cbn zeta. unfold message_update_put.
  rewrite Hown, Hc, Ht. cbn [mark_as_edited fst snd].
  assert (msg_id old = message_id) as Hid.
  { unfold get_own_message in Hown. apply List.find_some in Hown as [_ H]. lia. }
  split; [done|]. split; [|split; [done|split; [|split; [|done]]]].
  - unfold get_own_message. cbn [messages set_messages].
    rewrite find_map_stable.
    + unfold get_own_message in Hown. rewrite Hown. cbn.
      by rewrite Z.eqb_refl.
    + intros x. by destruct (msg_id x =? msg_id old).
  - cbn [messages set_messages]. rewrite <- list_fmap_compose.
    apply list_fmap_ext. intros i x _. cbn. by destruct (msg_id x =? msg_id old).
  - intros m Hin Hne. cbn [messages set_messages].
    apply list_elem_of_fmap. exists m. split; [|done].
    rewrite (proj2 (Z.eqb_neq _ _)); [done|congruence].
Qed.

(** X17. When the sender deletes a message, the message can no longer be
    fetched by its id and no read status points at it; every other
    message and every read status of another message stays; and a read
    receipt for the id, from any session, then changes nothing. *)
Theorem X17_deleted_message_is_gone_with_its_read_statuses
    (request_user : User) (message_id : Z) (m : Message) (d : database)
    (self : str) (now : Z) (gs : gmap str (gset str))
    (cs : gmap str ChatConsumer) :
  get_own_message message_id (id request_user) d = Some m ->
  let out := message_delete request_user message_id d in
  out.2 = Responds (HTTP_200_OK (py "Message deleted successfully")) /\
  get_message message_id out.1 = None /\
  (forall u, rows_for message_id u (read_status out.1) = 0%nat) /\
  (forall m', msg_id m' <> message_id -> m' ∈ messages out.1 <-> m' ∈ messages d) /\
  (forall m' u, m' <> message_id ->
     rows_for m' u (read_status out.1) = rows_for m' u (read_status d)) /\
  (handle_read_receipt self [(py "message_id", JInt message_id)] now
     (mkHub out.1 gs cs)).1 = mkHub out.1 gs cs.
Proof.
  intros Hown. cbn zeta. unfold message_delete. rewrite Hown. cbn [fst snd].
  assert (msg_id m = message_id) as Hid.
  { unfold get_own_message in Hown. apply List.find_some in Hown as [_ H]. lia. }
  assert (get_message message_id (delete_message m d) = None) as Hgone.
  { unfold get_message, delete_message. cbn [messages set_messages set_read_status].
    destruct (List.find _ _) as [x|] eqn:E; [|done].
    apply List.find_some in E as [Hin Hx]. apply List.filter_In in Hin as [_ Hne].
    apply negb_true_iff in Hne. lia. }
  split; [done|]. split; [done|]. split; [|split; [|split]].
  - intros u. unfold rows_for, delete_message.
    cbn [read_status set_read_status set_messages].
    destruct (List.filter _ _) as [|r l] eqn:E; [done|]. exfalso.
    assert (In r (r :: l)) as Hr by (by left). rewrite <- E in Hr.
    apply List.filter_In in Hr as [Hr Hsame]. apply List.filter_In in Hr as [_ Hne].
    unfold same_pair in Hsame. apply negb_true_iff in Hne. lia.
  - intros m' Hne. unfold delete_message. cbn [messages set_messages set_read_status].
    rewrite !list_elem_of_In, List.filter_In. split; [by intros [? _]|].
    intros Hin. split; [done|]. apply negb_true_iff. lia.
  - intros m' u Hne. unfold rows_for, delete_message.
    cbn [read_status set_read_status set_messages]. f_equal.
    induction (read_status d) as [|r l IH]; [done|]. simpl.
    destruct (rs_message r =? msg_id m) eqn:E1; simpl.
    + unfold same_pair at 2. rewrite (proj2 (Z.eqb_neq _ _)); [by rewrite IH| lia].
    + rewrite IH. done.
  - unfold handle_read_receipt. cbn [consumers db].
    destruct (cs !! self); [|done]. cbn [dict_get].
    rewrite decide_True by done. cbn [truthy].
    destruct (message_id =? 0); [done|]. cbn [negb to_pk].
    unfold mark_message_read. rewrite Hgone. done.
Qed.

(** ** Who may write through the views *)

Lemma existsb_false_filter {A} (f : A -> bool) (l : list A) :
  existsb f l = false -> List.filter f l = [].
Proof.
  induction l as [|x l IH]; simpl; [done|].
  destruct (f x); simpl; [done|auto].
Qed.

Lemma find_none_of_forall {A} (f : A -> bool) (l : list A) :
  (forall x, x ∈ l -> f x = false) -> List.find f l = None.
Proof.
  induction l as [|x l IH]; simpl; [done|]. intros H.
  rewrite (H x) by apply list_elem_of_here.
  apply IH. intros y Hy. apply H. by apply list_elem_of_further.
Qed.

(** X18. A user who has no participant row for a conversation and is not
    the sender of a message is answered 404 by the four writing views
    (mark read, leave, update, delete), and the database is unchanged. *)
Theorem X18_outsiders_are_answered_404
    (request_user : User) (conversation message_id : Z) (data : dict) (now : Z)
    (d : database) :
  existsb (is_row conversation (id request_user)) (participants d) = false ->
  (forall m, m ∈ messages d -> msg_id m = message_id ->
             msg_sender m <> id request_user) ->
  mark_read_post request_user conversation now d =
    (d, Responds (HTTP_404_NOT_FOUND (py "Conversation not found"))) /\
  conversation_delete request_user conversation d =
    (d, Responds (HTTP_404_NOT_FOUND (py "Conversation not found"))) /\
  message_update_put request_user message_id data now d =
    (d, Responds (HTTP_404_NOT_FOUND
                    (py "Message not found or you are not the sender"))) /\
  message_delete request_user message_id d =
    (d, Responds (HTTP_404_NOT_FOUND
                    (py "Message not found or you are not the sender"))).
Proof.
  intros Hout Hnot.
  assert (get_conversation_for conversation (id request_user) d = NoRow) as Hno.
  { unfold get_conversation_for. rewrite (existsb_false_filter _ _ Hout).
    by destruct (conversations d !! conversation). }
  assert (get_own_message message_id (id request_user) d = None) as Hnone.
  { unfold get_own_message. apply find_none_of_forall. intros m Hin.
    destruct (msg_id m =? message_id) eqn:E; [|done]. simpl.
    apply Z.eqb_neq, Hnot; [done|lia]. }
  unfold mark_read_post, conversation_delete, message_update_put, message_delete.
  by rewrite Hno, Hnone.
Qed.

(** ** Leaving a conversation *)

Lemma filter_length_zero {A} (f : A -> bool) (l : list A) :
  length (List.filter f l) = 0%nat <-> forall x, x ∈ l -> f x = false.
Proof.
  induction l as [|x l IH]; simpl.
  { split; [|done]. intros _ x Hx. by apply elem_of_nil in Hx. }
  destruct (f x) eqn:E; simpl.
  - split; [done|]. intros H. specialize (H x (list_elem_of_here _ _)). congruence.
  - rewrite IH. split.
    + intros H y [-> | Hy]%elem_of_cons; auto.
    + intros H y Hy. apply H. by apply list_elem_of_further.
Qed.

(** X19. When a participant leaves a conversation: the user has no
    participant row for it any more; every other participant row stays;
    the conversation stays exactly when a participant of it remains; if it
    goes, none of its messages and typing indicators is left; and every
    other conversation stays. *)
Theorem X19_leaving_deletes_the_conversation_with_its_last_participant
    (request_user : User) (conversation : Z) (d : database) :
  get_conversation_for conversation (id request_user) d = Got conversation ->
  let out := conversation_delete request_user conversation d in
  existsb (is_row conversation (id request_user)) (participants out.1) = false /\
  (forall p, is_row conversation (id request_user) p = false ->
     p ∈ participants out.1 <-> p ∈ participants d) /\
  (is_Some (conversations out.1 !! conversation) <->
   exists p, p ∈ participants d /\ cp_conversation p = conversation
             /\ cp_user p <> id request_user) /\
  (conversations out.1 !! conversation = None ->
   (forall m, m ∈ messages out.1 -> msg_conversation m <> conversation) /\
   (forall u, typing_indicators out.1 !! (conversation, u) = None)) /\
  (forall c, c <> conversation -> conversations out.1 !! c = conversations d !! c).
Proof.
  intros Hgot. cbn zeta. unfold conversation_delete. rewrite Hgot.
  assert (is_Some (conversations d !! conversation)) as Hex.
  { unfold get_conversation_for in Hgot.
    by destruct (conversations d !! conversation). }
  set (rest := List.filter
                 (fun p => negb (is_row conversation (id request_user) p))
                 (participants d)).
  cbn [participants set_participants]. fold rest.
  assert (forall p, p ∈ rest <->
            p ∈ participants d /\ is_row conversation (id request_user) p = false)
    as Hrest.
  { intros p. subst rest. rewrite !list_elem_of_In, List.filter_In.
    by rewrite negb_true_iff. }
  assert (existsb (is_row conversation (id request_user)) rest = false) as Hnone.
  { destruct (existsb _ rest) eqn:E; [|done].
    apply List.existsb_exists in E as (p & Hin & Hp).
    apply list_elem_of_In, Hrest in Hin as [_ Hp']. congruence. }
  assert ((exists p, p ∈ participants d /\ cp_conversation p = conversation
                     /\ cp_user p <> id request_user) <->
          length (List.filter (fun p => cp_conversation p =? conversation) rest)
            <> 0%nat) as Hcount.
  { rewrite filter_length_zero. split.
    - intros (p & Hin & Hc & Hu) Hall.
      assert (p ∈ rest) as Hp.
      { apply Hrest. split; [done|]. unfold is_row.
        rewrite (proj2 (Z.eqb_neq (cp_user p) _)) by done. apply andb_false_r. }
      specialize (Hall p Hp). lia.
    - intros Hnot.
      destruct (List.filter (fun p => cp_conversation p =? conversation) rest)
        as [|p l] eqn:E.
      { exfalso. apply Hnot. apply filter_length_zero. by rewrite E. }
      assert (In p (p :: l)) as Hp by (by left). rewrite <- E in Hp.
      apply List.filter_In in Hp as [Hp Hc]. apply list_elem_of_In, Hrest in Hp as [Hp Hrow].
      exists p. split; [done|]. split; [lia|].
      unfold is_row in Hrow. rewrite Hc in Hrow. simpl in Hrow. lia. }
  destruct (Nat.eqb_spec
              (length (List.filter (fun p => cp_conversation p =? conversation) rest)) 0)
    as [Hzero | Hsome]; cbn [fst].
  - (* the last participant has left *)
    pose proof (proj1 (filter_length_zero _ _) Hzero) as Hnoc.
    unfold delete_conversation.
    cbn [participants set_participants conversations messages typing_indicators users
         read_status].
    fold rest.
    assert (List.filter (fun p => negb (cp_conversation p =? conversation)) rest = rest)
      as Hsame.
    { clear -Hnoc. induction rest as [|p l IH]; simpl; [done|].
      rewrite (Hnoc p) by apply list_elem_of_here. simpl. f_equal.
      apply IH. intros x Hx. apply Hnoc. by apply list_elem_of_further. }
    rewrite Hsame. split; [done|]. split; [|split; [|split]].
    + intros p Hp. rewrite Hrest. split; [by intros [? _] | by intros ?; split].
    + rewrite lookup_delete_eq. split; [by intros [? ?]|].
      intros Hp. apply Hcount in Hp. lia.
    + intros _. split.
      * intros m Hm. apply list_elem_of_In, List.filter_In in Hm as [_ Hm].
        unfold in_conversation in Hm. apply negb_true_iff in Hm. lia.
      * intros u. apply map_lookup_filter_None. right. intros t _ Hf. by apply Hf.
    + intros c Hne. by apply lookup_delete_ne.
  - cbn [participants set_participants conversations]. fold rest.
    split; [done|]. split; [|split; [|split]].
    + intros p Hp. rewrite Hrest. split; [by intros [? _] | by intros ?; split].
    + split; [intros _; by apply Hcount | done].
    + intros Hgone. destruct Hex as [t Ht]. congruence.
    + done.
Qed.



(** ** The other user of a private conversation *)

(** X21. [get_other_user] never answers with the asking user: its answer
    is a participant of the conversation other than the asker, and only
    for a private conversation. In a private conversation whose
    participants are the asker and one other user, it answers that
    user. *)
Theorem X21_get_other_user_is_the_other_participant
    (conversation_type : str) (conversation user_id other : Z) (d : database) :
  (forall v, get_other_user conversation_type conversation user_id d = Some v ->
     v <> user_id /\ conversation_type = py "private" /\
     exists p, p ∈ participants d /\ cp_conversation p = conversation
               /\ cp_user p = v) /\
  (conversation_type = py "private" ->
   other <> user_id ->
   (exists p, p ∈ participants d /\ cp_conversation p = conversation
              /\ cp_user p = other) ->
   (forall p, p ∈ participants d -> cp_conversation p = conversation ->
              cp_user p = user_id \/ cp_user p = other) ->
   get_other_user conversation_type conversation user_id d = Some other).
Proof.
  unfold get_other_user. split.
  - intros v. case_bool_decide as Ht; [|done].
    destruct (List.filter _ _) as [|p l] eqn:E; [done|]. intros [= <-].
    assert (In p (p :: l)) as Hp by (by left). rewrite <- E in Hp.
    apply List.filter_In in Hp as [Hp Hu]. apply List.filter_In in Hp as [Hp Hc].
    apply negb_true_iff in Hu. split; [lia|]. split; [done|].
    exists p. split; [by apply list_elem_of_In|]. split; [lia|done].
  - intros -> Hne (p & Hin & Hc & Hu) Honly.
    rewrite bool_decide_eq_true_2 by done.
    destruct (List.filter _ _) as [|q l] eqn:E.
    + exfalso.
      assert (In p []) as Hbad; [|done]. rewrite <- E.
      apply List.filter_In. split.
      * apply List.filter_In. split; [by apply list_elem_of_In | lia].
      * apply negb_true_iff. lia.
    + assert (In q (q :: l)) as Hq by (by left). rewrite <- E in Hq.
      apply List.filter_In in Hq as [Hq Hqu]. apply List.filter_In in Hq as [Hq Hqc].
      apply negb_true_iff in Hqu. f_equal.
      destruct (Honly q) as [H|H]; [by apply list_elem_of_In | lia | lia | done].
Qed.

(** ** Validating a new conversation *)

Lemma size_list_to_set_le (l : list Z) :
  (size (list_to_set l : gset Z) <= length l)%nat /\
  (size (list_to_set l : gset Z) = length l -> NoDup l).
Proof.
  induction l as [|x l [IHle IHeq]].
  { rewrite list_to_set_nil, size_empty. split; [done | constructor]. }
  rewrite list_to_set_cons. cbn [length].
  destruct (decide (x ∈ (list_to_set l : gset Z))) as [Hin | Hout].
  - assert ({[x]} ∪ list_to_set l = (list_to_set l : gset Z)) as ->.
    { apply set_eq. intros y. rewrite elem_of_union, elem_of_singleton.
      split; [intros [->|?]; done | by right]. }
    split; [lia|]. intros Heq. lia.
  - rewrite size_union, size_singleton.
    2: { intros y Hy%elem_of_singleton Hy'. by subst. }
    split; [lia|]. intros Heq. constructor.
    + intros Hx. apply Hout. by apply elem_of_list_to_set.
    + apply IHeq. lia.
Qed.

Lemma existing_users_count (ids : list Z) (D : gset Z) :
  size (filter (fun u => u ∈ ids) D) = length ids <->
  NoDup ids /\ (forall u, u ∈ ids -> u ∈ D).
Proof.
  assert (filter (fun u => u ∈ ids) D ⊆ (list_to_set ids : gset Z)) as Hsub.
  { intros u [Hu _]%elem_of_filter. by apply elem_of_list_to_set. }
  destruct (size_list_to_set_le ids) as [Hle Hnodup].
  pose proof (subseteq_size _ _ Hsub) as Hsize.
  split.
  - intros Heq. split; [apply Hnodup; lia|].
    intros u Hu.
    assert (filter (fun u => u ∈ ids) D = (list_to_set ids : gset Z)) as Hsame
      by (apply set_subseteq_size_eq; [done|lia]).
    assert (u ∈ filter (fun u => u ∈ ids) D) as Hin
      by (rewrite Hsame; by apply elem_of_list_to_set).
    by apply elem_of_filter in Hin as [_ ?].
  - intros [Hnd Hall].
    assert (filter (fun u => u ∈ ids) D = (list_to_set ids : gset Z)) as ->.
    { apply set_eq. intros u. rewrite elem_of_filter, elem_of_list_to_set.
      split; [by intros [? _] | intros Hu; split; [done | by apply Hall]]. }
    by apply size_list_to_set.
Qed.

(** X22. [validate] accepts a request for a new conversation exactly
    when: a private one names one other participant; a group one names at
    least one and has a non-empty name; no id is named twice; and every
    named id is the id of a stored user. *)
Theorem X22_validate_accepts_exactly
    (conv_type : str) (name : option str) (participant_ids : list Z) (d : database) :
  validate conv_type name participant_ids d = Valid <->
  (conv_type = py "private" -> length participant_ids = 1%nat) /\
  (conv_type = py "group" ->
     (1 <= length participant_ids)%nat /\ (exists s, name = Some s /\ s <> [])) /\
  (NoDup participant_ids /\
   (forall u, u ∈ participant_ids -> is_Some (users d !! u))).
Proof.
  unfold validate.
  assert (truthy (from_option JStr JNull name) = true <->
          exists s, name = Some s /\ s <> []) as Hname.
  { destruct name as [[|c s]|]; simpl.
    - split; [done|]. by intros (s & [= <-] & ?).
    - split; [|done]. intros _. by exists (c :: s).
    - split; [done|]. by intros (s & ? & _). }
  assert ((size (filter (fun u => u ∈ participant_ids) (dom (users d)))
           =? length participant_ids)%nat = true <->
          NoDup participant_ids /\
          (forall u, u ∈ participant_ids -> is_Some (users d !! u))) as Hcount.
  { rewrite Nat.eqb_eq, existing_users_count.
    split; intros [? Hall]; (split; [done|]); intros u Hu;
      by apply elem_of_dom, Hall. }
  pose proof (bool_decide_eq_true (conv_type = py "private")) as Hp.
  pose proof (bool_decide_eq_true (conv_type = py "group")) as Hg.
  assert (conv_type = py "private" -> conv_type = py "group" -> False) as Hpg.
  { intros -> Heq. by apply py_inj in Heq. }
  pose proof (Nat.eqb_eq (length participant_ids) 1) as H1.
  pose proof (Nat.ltb_lt (length participant_ids) 1) as Hl.
  generalize dependent (exists s, name = Some s /\ s <> []). intros N Hname.
  generalize dependent (NoDup participant_ids /\
    (forall u, u ∈ participant_ids -> is_Some (users d !! u))). intros C Hcount.
  destruct (bool_decide (conv_type = py "private"));
    destruct (bool_decide (conv_type = py "group"));
    destruct (length participant_ids =? 1)%nat;
    destruct (length participant_ids <? 1)%nat;
    destruct (truthy (from_option JStr JNull name));
    destruct (size _ =? length participant_ids)%nat;
    cbn [andb negb];
    (split;
     [ intros HV;
       first [discriminate HV | intuition (try discriminate; try lia)]
     | intros (Hx & Hy & Hz);
       first [reflexivity | exfalso; intuition (try discriminate; try lia)] ]).
Qed.

(** ** What an inbound frame can do to the sessions *)

Lemma dispatch_appends (ev : event) (c : ChatConsumer) :
  conversation_id (dispatch ev c) = conversation_id c /\
  conversation_group_name (dispatch ev c) = conversation_group_name c /\
  user (dispatch ev c) = user c /\ ws (dispatch ev c) = ws c /\
  (sent (dispatch ev c) = sent c \/ exists f, sent (dispatch ev c) = sent c ++ [f]).
Proof.
  destruct ev; cbn; unfold typing_indicator_handler;
    try destruct (negb _); cbn; repeat split; eauto.
Qed.

Lemma group_send_appends g ev h ch c :
  consumers h !! ch = Some c ->
  exists c', consumers (group_send g ev h) !! ch = Some c' /\
    conversation_id c' = conversation_id c /\
    conversation_group_name c' = conversation_group_name c /\
    user c' = user c /\ ws c' = ws c /\
    (sent c' = sent c \/ exists f, sent c' = sent c ++ [f]).
Proof.
  intros Hc. rewrite group_send_lookup, Hc. cbn.
  case_bool_decide; eexists; (split; [done|]).
  - apply dispatch_appends.
  - repeat split; auto.
Qed.

Lemma unchanged_appends (cs : gmap str ChatConsumer) ch c :
  cs !! ch = Some c ->
  exists c', cs !! ch = Some c' /\
    conversation_id c' = conversation_id c /\
    conversation_group_name c' = conversation_group_name c /\
    user c' = user c /\ ws c' = ws c /\
    (sent c' = sent c \/ exists f, sent c' = sent c ++ [f]).
Proof. intros Hc. exists c. repeat split; auto. Qed.

Lemma on_self_send_appends self f h ch c :
  consumers h !! ch = Some c ->
  exists c', consumers (on_self self (send f) h) !! ch = Some c' /\
    conversation_id c' = conversation_id c /\
    conversation_group_name c' = conversation_group_name c /\
    user c' = user c /\ ws c' = ws c /\
    (sent c' = sent c \/ exists f, sent c' = sent c ++ [f]).
Proof.
  intros Hc. destruct (decide (ch = self)) as [->|Hne].
  - rewrite on_self_lookup, Hc. eexists. split; [done|]. cbn. repeat split; eauto.
  - rewrite on_self_lookup_ne by done. by apply unchanged_appends.
Qed.

(** X23. An inbound frame that [receive] handles without letting an
    exception escape removes no session and changes no session's
    attributes or socket state; what a session has been sent is only
    extended, by at most one frame, and the groups stay as they are. *)
Theorem X23_a_frame_appends_at_most_one_frame_per_session
    (self : str) (text : text_data) (now : Z) (h : hub) (ch : str) (c : ChatConsumer) :
  consumers h !! ch = Some c ->
  (receive self text now h).2 = None ->
  groups (receive self text now h).1 = groups h /\
  exists c', consumers (receive self text now h).1 !! ch = Some c' /\
    conversation_id c' = conversation_id c /\
    conversation_group_name c' = conversation_group_name c /\
    user c' = user c /\ ws c' = ws c /\
    (sent c' = sent c \/ exists f, sent c' = sent c ++ [f]).
Proof.
  intros Hc Hreturns. revert Hreturns.
  destruct text as [| |[]]; cbn [receive]; try done; intros _.
  { split; [done|]. by apply on_self_send_appends. }
  repeat case_match.
  - unfold handle_chat_message.
    destruct (consumers h !! self) as [me|];
      [|split; [done | by apply unchanged_appends]].
    destruct (dict_get_default _ _ _);
      try (split; [done | by apply unchanged_appends]).
    case_bool_decide; [split; [done | by apply unchanged_appends]|].
    destruct (save_message me (strip s) now (db h)) as [d' [m|]]; cbn [fst returns].
    + split; [done|]. by apply group_send_appends.
    + split; [done|]. by apply unchanged_appends.
  - unfold handle_typing.
    destruct (consumers h !! self) as [me|];
      [|split; [done | by apply unchanged_appends]].
    destruct (if truthy _ then _ else _) as [d' [e|]]; cbn [fst returns raises].
    + split; [done|]. by apply unchanged_appends.
    + split; [done|]. by apply group_send_appends.
  - destruct (handle_read_receipt_frame self d now h) as (-> & -> & _).
    split; [done|]. by apply unchanged_appends.
  - split; [done|]. by apply on_self_send_appends.
Qed.

(** ** The further properties at work in the small world *)

Lemma no_rows_unique : unique_together [].
Proof. intros message user_id. by_computation. Qed.

Lemma frames_stay_inside_the_group_witness :
  consumers (receive (py "b") (Loaded (JDict chat_hi)) 10 hub_bob_and_carol).1 !! py "c"
  = consumers hub_bob_and_carol !! py "c".
Proof.
  apply (X5_frames_stay_inside_the_group (py "b") (py "c")
           (session_of (py "b") hub_bob_and_carol));
    [by_computation | by_computation | is_member].
Defined.

Lemma typing_frame_witness :
  typing_indicators (db (handle_typing (py "a") typing_on 11 hub_pair).1) !! (1, 1)
  = Some 11.
Proof.
  destruct (X6_typing_frame_sets_or_clears_the_indicator
              (py "a") (session_of (py "a") hub_pair) typing_on 11 hub_pair)
    as (Hset & _); [by_computation | by_computation |].
  exact Hset.
Defined.

Lemma disconnect_witness :
  py "a" ∉ members (group_name_of 1) (disconnect (py "a") 1000 hub_pair).1.
Proof.
  destruct (X7_disconnect_leaves_the_group_and_clears_typing
              (py "a") (session_of (py "a") hub_pair) 1000
              (EvChatMessage (mkData (mkMessage 1 1 1 [] [] 0 None false) alice false))
              hub_pair)
    as (Hout & _); [by_computation |].
  exact Hout.
Defined.


Lemma one_row_per_pair_witness :
  unique_together
    (read_status (db (handle_read_receipt (py "b") (read_receipt_for 1) 20 hub_hi).1)).
Proof.
  apply (X10_read_receipt_keeps_one_row_per_pair
           (py "b") (read_receipt_for 1) 1 20 hub_hi).
  - exact no_rows_unique.
  - by_computation.
Defined.

Lemma is_read_witness :
  get_is_read (Some bob) (mkMessage 1 1 1 (py "text") (py "hi") 10 None false)
    (db (handle_read_receipt (py "b") (read_receipt_for 1) 20 hub_hi).1) = true.
Proof.
  destruct (X12_read_receipt_makes_is_read_true
              (py "b") (session_of (py "b") hub_hi) (read_receipt_for 1) 1 20
              (mkMessage 1 1 1 (py "text") (py "hi") 10 None false) hub_hi)
    as (Hread & _); [by_computation .. |].
  exact Hread.
Defined.

Lemma mark_every_message_witness :
  unread_messages 1 2 (mark_read_post bob 1 20 (db hub_hi)).1 = [] /\
  read_status (mark_read_post bob 1 20 (db hub_hi)).1 = [mkReadStatus 1 2 20].
Proof.
  destruct (X14_mark_read_post_marks_every_message bob 1 20 (db hub_hi))
    as (_ & Hnone & _); [exact no_rows_unique | by_computation |].
  split; [exact Hnone | by_computation].
Defined.

Lemma zero_unread_witness :
  get_unread_count (mkParticipant 1 2 false None) (db hub_hi) = 1%nat /\
  get_unread_count (mkParticipant 1 2 false (Some 20))
    (mark_read_post bob 1 20 (db hub_hi)).1 = 0%nat.
Proof.
  split; [by_computation|].
  apply (X15_mark_read_post_zeroes_the_unread_count bob 1 20 (db hub_hi)).
  - by_computation.
  - assert (messages (db hub_hi) = [mkMessage 1 1 1 (py "text") (py "hi") 10 None false])
      as -> by by_computation.
    intros m ->%list_elem_of_singleton _. by_computation.
  - by_computation.
  - by_computation.
Defined.

Lemma put_witness :
  (message_update_put alice 1 [(py "content", JStr (py "bye"))] 30 (db hub_hi)).2 =
    Responds (HTTP_200_OK_data (py "Message updated successfully") (JStr (py "bye"))
                (mkMessage 1 1 1 (py "text") (py "hi") 10 (Some 30) true) false) /\
  messages (message_update_put alice 1 [(py "content", JStr (py "bye"))] 30
              (db hub_hi)).1 =
    [mkMessage 1 1 1 (py "text") (py "hi") 10 (Some 30) true].
Proof.
  destruct (X16_put_marks_edited_but_keeps_the_stored_content
              alice 1 [(py "content", JStr (py "bye"))] (JStr (py "bye"))
              (mkMessage 1 1 1 (py "text") (py "hi") 10 None false) 30 (db hub_hi))
    as (Hresp & _); [by_computation .. |].
  split; [|by_computation]. rewrite Hresp. by_computation.
Defined.

Lemma deleted_message_witness :
  get_message 1 (message_delete alice 1 (db hub_hi)).1 = None /\
  get_message 1 (db hub_hi)
    = Some (mkMessage 1 1 1 (py "text") (py "hi") 10 None false).
Proof.
  destruct (X17_deleted_message_is_gone_with_its_read_statuses
              alice 1 (mkMessage 1 1 1 (py "text") (py "hi") 10 None false)
              (db hub_hi) (py "b") 40 (groups hub_hi) (consumers hub_hi))
    as (_ & Hgone & _); [by_computation |].
  split; [exact Hgone | by_computation].
Defined.

Lemma outsider_witness :
  message_delete carol 1 (db hub_hi) =
    (db hub_hi, Responds (HTTP_404_NOT_FOUND
                            (py "Message not found or you are not the sender"))) /\
  mark_read_post carol 1 20 (db hub_hi) =
    (db hub_hi, Responds (HTTP_404_NOT_FOUND (py "Conversation not found"))).
Proof.
  destruct (X18_outsiders_are_answered_404 carol 1 1 [] 20 (db hub_hi))
    as (Hmark & _ & _ & Hdel).
  - by_computation.
  - assert (messages (db hub_hi) = [mkMessage 1 1 1 (py "text") (py "hi") 10 None false])
      as -> by by_computation.
    intros m ->%list_elem_of_singleton _. by_computation.
  - split; [exact Hdel | exact Hmark].
Defined.

Lemma leaving_witness :
  is_Some (conversations (conversation_delete bob 1 (db hub_hi)).1 !! 1) /\
  existsb (is_row 1 2) (participants (conversation_delete bob 1 (db hub_hi)).1) = false.
Proof.
  destruct (X19_leaving_deletes_the_conversation_with_its_last_participant
              bob 1 (db hub_hi))
    as (Hleft & _ & Hstays & _); [by_computation |].
  split; [|exact Hleft]. apply Hstays.
  exists (mkParticipant 1 1 false None).
  split; [by_computation|]. split; by_computation.
Defined.


Lemma other_user_witness : get_other_user (py "private") 1 1 db0 = Some 2.
Proof.
  apply (proj2 (X21_get_other_user_is_the_other_participant (py "private") 1 1 2 db0)).
  - reflexivity.
  - by_computation.
  - exists (mkParticipant 1 2 false None). split; [by_computation|]. split; by_computation.
  - intros p Hp Hc. vm_compute in Hp.
    repeat (apply elem_of_cons in Hp as [-> | Hp]); try (by left); try (by right);
      try discriminate Hc. by apply elem_of_nil in Hp.
Defined.

Lemma at_most_one_frame_witness :
  exists c',
    consumers (receive (py "a") (Loaded (JDict chat_hi)) 10 hub_pair).1 !! py "b"
      = Some c' /\
    ws c' = Accepted /\ user c' = bob.
Proof.
  destruct (X23_a_frame_appends_at_most_one_frame_per_session
              (py "a") (Loaded (JDict chat_hi)) 10 hub_pair (py "b")
              (session_of (py "b") hub_pair))
    as (_ & c' & Hc' & _ & _ & Hu & Hws & _); [by_computation | by_computation |].
  exists c'. split; [exact Hc'|].
  split; [rewrite Hws | rewrite Hu]; by_computation.
Defined.

Lemma connect_accepts_witness :
  ws (session_of (py "x") (connect (py "x") (mkScope 1 carol) hub_bob_and_carol).1)
    = Closed /\
  ws (session_of (py "a") (connect (py "a") (mkScope 1 alice) hub0).1) = Accepted.
Proof.
  split.
  - destruct (X13_connect_accepts_exactly_the_participants
                (py "x") (mkScope 1 carol) hub_bob_and_carol) as [_ H];
      [unfold in_db_range; cbn; lia|].
    cbv zeta in H.
    replace (is_authenticated (scope_user (mkScope 1 carol))
             && check_participant
                  (mkConsumer (url_conversation_id (mkScope 1 carol))
                     (group_name_of (url_conversation_id (mkScope 1 carol)))
                     (scope_user (mkScope 1 carol)) Connecting [])
                  (db hub_bob_and_carol))
      with false in H by by_computation.
    exact (proj1 H).
  - destruct (X13_connect_accepts_exactly_the_participants
                (py "a") (mkScope 1 alice) hub0) as [_ H];
      [unfold in_db_range; cbn; lia|].
    cbv zeta in H.
    replace (is_authenticated (scope_user (mkScope 1 alice))
             && check_participant
                  (mkConsumer (url_conversation_id (mkScope 1 alice))
                     (group_name_of (url_conversation_id (mkScope 1 alice)))
                     (scope_user (mkScope 1 alice)) Connecting [])
                  (db hub0))
      with true in H by by_computation.
    exact (proj1 H).
Defined.
